(** * AWATCH: a shallow embedding of [awatch.ino]

    The firmware keeps all its state in file-level statics.  They are
    gathered here in one record that is threaded through the functions
    of the sketch.  Machine integers are [Z] with their wrap-around
    written out: [byte] is 8-bit unsigned, [int] is 16-bit signed (AVR),
    [unsigned long] is 32-bit unsigned. *)

From Stdlib Require Import ZArith Lia Bool List Ascii.
From stdpp Require Import base list.
Import ListNotations.

Local Open Scope Z_scope.

(** ** Machine integers *)

Module Mach.

Definition to_byte (x : Z) : Z := x mod 256.
Definition to_ulong (x : Z) : Z := x mod 4294967296.
(** AVR [int]: 16 bits, two's complement. *)
Definition to_int (x : Z) : Z := (x + 32768) mod 65536 - 32768.

Definition is_byte (x : Z) : Prop := 0 <= x < 256.
Definition is_ulong (x : Z) : Prop := 0 <= x < 4294967296.

End Mach.
Export Mach.

(** ** Font (3x7, [PROGMEM]) *)

Definition FWIDTH : Z := 3.
Definition FOFFSET : Z := 48. (* '0' *)

Definition font : list Z :=
  [ 0x7f; 0x41; 0x7f   (* 0 *)
  ; 0x42; 0x7f; 0x40   (* 1 *)
  ; 0x79; 0x49; 0x4f   (* 2 *)
  ; 0x49; 0x49; 0x7f   (* 3 *)
  ; 0x0f; 0x08; 0x7f   (* 4 *)
  ; 0x4f; 0x49; 0x79   (* 5 *)
  ; 0x7f; 0x49; 0x78   (* 6 *)
  ; 0x03; 0x01; 0x7f   (* 7 *)
  ; 0x7f; 0x49; 0x7f   (* 8 *)
  ; 0x0f; 0x49; 0x7f   (* 9 *)
  ; 0x00; 0x14; 0x00   (* : *)
  ; 0x00; 0x00; 0x00   (* ; space *)
  ; 0x08; 0x1c; 0x3e   (* < left *)
  ; 0x00; 0x40; 0x00   (* = dot *)
  ; 0x3e; 0x1c; 0x08   (* > right *)
  ; 0x04; 0x06; 0x7f   (* ? arrowL *)
  ; 0x7f; 0x06; 0x04   (* @ arrowR *)
  ; 0x7f; 0x09; 0x7f   (* A *)
  ; 0x7f; 0x49; 0x7f   (* B *)
  ; 0x7f; 0x41; 0x41   (* C *)
  ; 0x7f; 0x41; 0x7e   (* D *)
  ; 0x7f; 0x49; 0x49   (* E *)
  ; 0x7f; 0x09; 0x09   (* F *)
  ; 0x7f; 0x41; 0x79   (* G *)
  ; 0x7f; 0x08; 0x7f   (* H *)
  ; 0x41; 0x7f; 0x41   (* I *)
  ; 0x60; 0x40; 0x7f   (* J *)
  ; 0x7f; 0x1c; 0x77   (* K *)
  ; 0x7f; 0x40; 0x40   (* L *)
  ; 0x7f; 0x07; 0x7f   (* M *)
  ; 0x7f; 0x0e; 0x7f   (* N *)
  ; 0x7f; 0x41; 0x7f   (* O *)
  ; 0x7f; 0x09; 0x0f   (* P *)
  ; 0x7f; 0x61; 0x7f   (* Q *)
  ; 0x7f; 0x19; 0x6f   (* R *)
  ; 0x4f; 0x49; 0x79   (* S *)
  ; 0x01; 0x7f; 0x01   (* T *)
  ; 0x7f; 0x40; 0x7f   (* U *)
  ; 0x3f; 0x60; 0x3f   (* V *)
  ; 0x7f; 0x70; 0x7f   (* W *)
  ; 0x77; 0x1c; 0x77   (* X *)
  ; 0x0f; 0x78; 0x0f   (* Y *)
  ; 0x71; 0x49; 0x47   (* Z *)
  ].

(** [pgm_read_byte(table + i)].  A read outside the table returns
    whatever the flash holds there; the model reads 0. *)
Definition pgm_read_byte (table : list Z) (i : Z) : Z :=
  if i <? 0 then 0 else nth (Z.to_nat i) table 0.

(** ** Display *)

Definition CONTRAST : Z := 0x80.
Definition DWIDTH : Z := 32.
Definition DLINES : Z := 3.
Definition XOFF : Z := 32.

(** What reaches the display controller.  The I2C framing of TinyWireM
    (address, control byte, re-opening a full transaction in
    [dsenddatabyte]) is left out: [Cmd] is a run of command bytes and
    [Data] the run of data bytes streamed after it, which the code sends
    in as many I2C transactions as the TinyWireM buffer makes necessary.
    The log tells the bytes and their order, not the transactions. *)
Inductive bus_event : Type :=
| Cmd (bytes : list Z)
| Data (bytes : list Z).

Definition dinit : list Z :=
  [0xA8; 0x3F; 0xDA; 0x12; 0x8D; 0x14; 0x81; CONTRAST; 0xAF].

Definition dsendcmd (cmd : Z) (bus : list bus_event) : list bus_event :=
  bus ++ [Cmd [cmd]].

Definition bootscreen (bus : list bus_event) : list bus_event :=
  fold_left (fun b c => dsendcmd c b) dinit bus.

Definition setpage (page : Z) (bus : list bus_event) : list bus_event :=
  bus ++ [Cmd [0x20; 0x01; 0x21; XOFF; XOFF + 64; 0x22; page; page]].

Definition doff (bus : list bus_event) : list bus_event := dsendcmd 0xAE bus.
Definition don (bus : list bus_event) : list bus_event := dsendcmd 0xAF bus.

(** [for (byte i = 0; i < n; i++)]: the values [i] takes. *)
Definition upto (n : Z) : list Z := map Z.of_nat (seq 0 (Z.to_nat n)).

(** [dbuf[i] = v] on the 96-byte array. *)
Definition dbuf_set (i v : Z) (dbuf : list Z) : list Z :=
  <[Z.to_nat i := v]> dbuf.

Definition dbuf_get (dbuf : list Z) (i : Z) : Z :=
  nth (Z.to_nat i) dbuf 0.

Definition dbuffill (n : Z) (dbuf : list Z) : list Z :=
  fold_left (fun b i => dbuf_set i n b) (upto (DWIDTH * DLINES)) dbuf.

Definition expand4bit (b : Z) : Z :=
  let b := to_byte (Z.land (Z.lor b (Z.shiftl b 2)) 0x33) in
  let b := to_byte (Z.land (Z.lor b (Z.shiftl b 1)) 0x55) in
  to_byte (Z.lor b (Z.shiftl b 1)).

Definition ddisplaypage (page : Z) (dbuf : list Z) (bus : list bus_event)
  : list bus_event :=
  let bus := setpage page bus in
  bus ++ [Data (flat_map (fun j =>
            let tmp := expand4bit
              (Z.land (Z.shiftr (dbuf_get dbuf ((page / 2) * DWIDTH + j))
                                ((page mod 2) * 4)) 0x0f) in
            [tmp; tmp]) (upto DWIDTH))].

Definition ddisplay (dbuf : list Z) (bus : list bus_event) : list bus_event :=
  fold_left (fun b i => ddisplaypage (2 * i + 1) dbuf (ddisplaypage (2 * i) dbuf b))
            (upto DLINES) bus.

(** The byte [printcat] writes for column [i] of character [c] in row
    [k] of the glyph: the [tmp] of its inner loop. *)
Definition glyphcol (c height k i : Z) : Z :=
  let tmp := pgm_read_byte font (FWIDTH * (c - FOFFSET) + i) in
  if height =? 2 then expand4bit (Z.land (Z.shiftr tmp (4 * k)) 0x0f) else tmp.

Definition printcat (c x y width height : Z) (dbuf : list Z) : list Z :=
  fold_left (fun b k =>
    fold_left (fun b i =>
      let tmp := glyphcol c height k i in
      fold_left (fun b j => dbuf_set (x + (width * i + j) + (y + k) * DWIDTH) tmp b)
                (upto width) b)
      (upto FWIDTH) b)
    (upto height) dbuf.

(** ** Application: macros, defines, globals *)

(** C's [/] and [%] on [int] truncate towards zero. *)
Definition _ones (x : Z) : Z := Z.rem x 10.
Definition _tens (x : Z) : Z := Z.rem (Z.quot x 10) 10.
Definition _huns (x : Z) : Z := Z.rem (Z.quot x 100) 10.
Definition _tsds (x : Z) : Z := Z.rem (Z.quot x 1000) 10.

Definition TIMEOUT : Z := 5000.
Definition WDT_INTERVAL : Z := 6.
Definition TIME1224 : Z := 24.

Definition wdtmillisperinterrupt : Z := 1072.

Definition chr (a : ascii) : Z := Z.of_nat (nat_of_ascii a).

Definition wday : list Z :=
  map chr ["M"; "O"; "T"; "U"; "W"; "E"; "T"; "H"; "F"; "R"; "S"; "A"; "S"; "U"]%char.

(** The statics of the sketch, the display buffer and the bus log. *)
Record state : Type := mkState {
  tim : Z;          (* unsigned long: global time, ms *)
  outtime : Z;      (* unsigned long: millis + TIMEOUT *)
  issleep : bool;
  setstate : Z;     (* byte, 0~6: none/s/m/10m/h/10h/d *)
  vcc : Z;          (* int *)
  wdtmillis : Z;    (* unsigned long *)
  weekday : Z;      (* byte, 0~6: MO..SU *)
  dbuf : list Z;    (* byte[DWIDTH * DLINES] *)
  bus : list bus_event
}.

Definition set_tim (v : Z) (s : state) : state :=
  mkState v (outtime s) (issleep s) (setstate s) (vcc s) (wdtmillis s)
          (weekday s) (dbuf s) (bus s).
Definition set_outtime (v : Z) (s : state) : state :=
  mkState (tim s) v (issleep s) (setstate s) (vcc s) (wdtmillis s)
          (weekday s) (dbuf s) (bus s).
Definition set_issleep (v : bool) (s : state) : state :=
  mkState (tim s) (outtime s) v (setstate s) (vcc s) (wdtmillis s)
          (weekday s) (dbuf s) (bus s).
Definition set_setstate (v : Z) (s : state) : state :=
  mkState (tim s) (outtime s) (issleep s) v (vcc s) (wdtmillis s)
          (weekday s) (dbuf s) (bus s).
Definition set_vcc (v : Z) (s : state) : state :=
  mkState (tim s) (outtime s) (issleep s) (setstate s) v (wdtmillis s)
          (weekday s) (dbuf s) (bus s).
Definition set_wdtmillis (v : Z) (s : state) : state :=
  mkState (tim s) (outtime s) (issleep s) (setstate s) (vcc s) v
          (weekday s) (dbuf s) (bus s).
Definition set_weekday (v : Z) (s : state) : state :=
  mkState (tim s) (outtime s) (issleep s) (setstate s) (vcc s) (wdtmillis s)
          v (dbuf s) (bus s).
Definition set_dbuf (v : list Z) (s : state) : state :=
  mkState (tim s) (outtime s) (issleep s) (setstate s) (vcc s) (wdtmillis s)
          (weekday s) v (bus s).
Definition set_bus (v : list bus_event) (s : state) : state :=
  mkState (tim s) (outtime s) (issleep s) (setstate s) (vcc s) (wdtmillis s)
          (weekday s) (dbuf s) v.

(** A routine that only writes [dbuf]. *)
Definition on_dbuf (f : list Z -> list Z) (s : state) : state :=
  set_dbuf (f (dbuf s)) s.

(** The state after the static initialisers, before [setup]. *)
Definition init_state : state :=
  mkState 0 0 false 0 0 0 0 (replicate 96 0) [].

(** A state to try things on: 01:01:01 on the clock, setting the hours,
    display on, every pixel of the buffer lit. *)
Definition demo_state : state :=
  mkState 3661000 5000 false 4 330 0 2 (replicate 96 0xFF) [Cmd [0xAF]].

(** ** Subprograms *)

(** [batt]: [low], [high] are the ADC result registers. *)
Definition batt (low high : Z) : Z :=
  to_int (Z.quot 112530 (Z.lor (Z.shiftl high 8) low)).

(** [millis()] is the argument [now]. *)
Definition setdtimeout (now : Z) (s : state) : state :=
  set_outtime (to_ulong (now + TIMEOUT)) s.

(** [delayshort(2)] only lets time pass. *)
Definition setsleep (s : state) : state :=
  let s := set_setstate 0 s in
  let s := on_dbuf (dbuffill 0x00) s in
  let s := set_bus (doff (bus s)) s in
  set_issleep true s.

Definition ISR_WDT (s : state) : state :=
  set_wdtmillis (to_ulong (wdtmillis s + wdtmillisperinterrupt)) s.

Definition ISR_PCINT0 (now : Z) (s : state) : state :=
  if issleep s then
    let s := setdtimeout now s in
    let s := set_bus (don (bus s)) s in
    set_issleep false s
  else s.

(** [delayshort]: the test of its busy loop, with [t] the start time and
    [now] what [millis()] returns; the difference is unsigned long, the
    cast keeps its low byte. *)
Definition delayshort_waits (ms t now : Z) : bool :=
  to_byte (to_ulong (now - t)) <? ms.

(** [delayshort] against the successive values of [millis()]: the first
    is [t], the loop polls the others; the result is what is left of them
    when the loop exits, [None] if they run out before. *)
Fixpoint delayshort_poll (ms t : Z) (readings : list Z) : option (list Z) :=
  match readings with
  | [] => None
  | now :: rest =>
      if delayshort_waits ms t now then delayshort_poll ms t rest else Some rest
  end.

Definition delayshort (ms : Z) (readings : list Z) : option (list Z) :=
  match readings with
  | [] => None
  | t :: rest => delayshort_poll ms t rest
  end.

(** Bit numbers of the watchdog control register (avr/io.h, ATtiny85). *)
Definition WDE : Z := 3.
Definition WDCE : Z := 4.
Definition WDIE : Z := 6.

(** [setwatchdog]: the value [wv] it computes and writes to [WDTCR]. *)
Definition setwatchdog_wv (n : Z) : Z :=
  let n := if n >? 9 then 9 else n in
  let wv := Z.land n 0x07 in
  let wv := if n >? 0x07 then to_byte (Z.lor wv (Z.shiftl 1 5)) else wv in
  to_byte (Z.lor wv (Z.shiftl 1 WDCE)).

(** ** Printing *)

Definition printhm (n x : Z) (dbuf : list Z) : list Z :=
  printcat (to_byte (_ones n + FOFFSET)) (to_byte (x + 8)) 0 2 2
    (printcat (to_byte (_tens n + FOFFSET)) x 0 2 2 dbuf).

Definition prints (s : Z) (dbuf : list Z) : list Z :=
  printcat (to_byte (_ones s + FOFFSET)) 4 2 1 1
    (printcat (to_byte (_tens s + FOFFSET)) 0 2 1 1 dbuf).

Definition printarrow (x : Z) (dbuf : list Z) : list Z :=
  printcat (chr "@") (to_byte (x + 3)) 2 1 1 (printcat (chr "?") x 2 1 1 dbuf).

(** The values [printscreen] derives from [tim]; [hours_of] has the
    hour format ([TIME1224], 12 or 24) as an argument. *)
Definition hours_of (fmt t : Z) : Z := (t / 1000 / 60 / 60) mod fmt.
Definition hours (t : Z) : Z := hours_of TIME1224 t.
Definition minutes (t : Z) : Z := (t / 1000 / 60) mod 60.
Definition seconds (t : Z) : Z := (t / 1000) mod 60.
Definition dayofweek (t : Z) : Z := (t / 1000 / 60 / 60 / 24) mod 7.

Definition printscreen (s : state) : state :=
  let s := on_dbuf (dbuffill 0x00) s in
  let s := on_dbuf (printcat (chr ":") 13 0 2 2) s in
  let s := on_dbuf (printhm (to_byte (hours (tim s))) 0) s in
  let s := on_dbuf (printhm (to_byte (minutes (tim s))) 18) s in
  let s :=
    if (setstate s <? 2) && negb (setstate s =? 6)
    then on_dbuf (prints (to_byte (seconds (tim s)))) s else s in
  let s :=
    if (setstate s =? 0) || (setstate s =? 6) then
      let s := set_weekday (to_byte (dayofweek (tim s))) s in
      let s := on_dbuf (printcat (pgm_read_byte wday (2 * weekday s)) 11 2 1 1) s in
      on_dbuf (printcat (pgm_read_byte wday (2 * weekday s + 1)) 15 2 1 1) s
    else s in
  let s :=
    if setstate s =? 1 then on_dbuf (printcat (chr "<") 8 2 1 1) s
    else if setstate s =? 2 then on_dbuf (printarrow 26) s
    else if setstate s =? 3 then on_dbuf (printarrow 18) s
    else if setstate s =? 4 then on_dbuf (printarrow 8) s
    else if setstate s =? 5 then on_dbuf (printarrow 0) s
    else if setstate s =? 6 then on_dbuf (printcat (chr ">") 7 2 1 1) s
    else
      let s := on_dbuf (printcat (to_byte (_huns (vcc s) + FOFFSET)) 23 2 1 1) s in
      let s := on_dbuf (printcat (chr "=") 26 2 1 1) s in
      on_dbuf (printcat (to_byte (_tens (vcc s) + FOFFSET)) 29 2 1 1) s in
  set_bus (ddisplay (dbuf s) (bus s)) s.

(** ** Setup, loop *)

Definition setup (now low high : Z) (s : state) : state :=
  let s := set_bus (bootscreen (bus s)) s in
  let s := on_dbuf (dbuffill 0x00) s in
  let s := setdtimeout now s in
  set_vcc (batt low high) s.

(** [if (setstate++ > 5) setstate = 0;] *)
Definition longpress (s : state) : state :=
  let old := setstate s in
  let s := set_setstate (to_byte (old + 1)) s in
  if old >? 5 then set_setstate 0 s else s.

Definition shortpress (s : state) : state :=
  let st := setstate s in
  let t := tim s in
  if st =? 1 then set_tim (to_ulong (t - to_ulong (((t / 1000) mod 60) * 1000))) s
  else if st =? 2 then set_tim (to_ulong (t + 60000)) s
  else if st =? 3 then set_tim (to_ulong (t + 600000)) s
  else if st =? 4 then set_tim (to_ulong (t + 3600000)) s
  else if st =? 5 then set_tim (to_ulong (t + 36000000)) s
  else if st =? 6 then
    let old := weekday s in
    let s := set_weekday (to_byte (old + 1)) s in
    if old >? 5 then set_weekday 0 s else s
  else s.

(** What one pass of [loop] reads from the outside: [millis()] at the
    timeout test and at [setdtimeout], the two samples of the button
    ([true] = LOW = pressed), the ADC registers. *)
Record loop_input : Type := mkInput {
  millis_check : Z;
  pressed1 : bool;
  millis_press : Z;
  adcl : Z;
  adch : Z;
  pressed2 : bool
}.

(** [tim += wdtmillis; wdtmillis = 0;] with no interrupt taken between
    the two statements. *)
Definition drain (s : state) : state :=
  set_wdtmillis 0 (set_tim (to_ulong (tim s + wdtmillis s)) s).

(** One pass of [loop], with no interrupt taken inside it. *)
Definition loop (inp : loop_input) (s : state) : state :=
  if issleep s then s
  else if millis_check inp >? outtime s then setsleep s
  else
    let s := drain s in
    let s := printscreen s in
    if pressed1 inp then
      let s := setdtimeout (millis_press inp) s in
      let s := set_vcc (batt (adcl inp) (adch inp)) s in
      if pressed2 inp then longpress s else shortpress s
    else s.

(** ** Observations on the state *)

(** The panel as the SSD1306 sees the command stream: [0xAF] switches it
    on, [0xAE] off, the last such command decides; it is off before any. *)
Definition display_on (bus : list bus_event) : bool :=
  fold_left (fun on e =>
               match e with
               | Cmd [c] => if c =? 0xAF then true
                            else if c =? 0xAE then false else on
               | _ => on
               end) bus false.

(** A drawing routine [draw] is visible in [dbuf] when running it again
    changes no byte: every cell it writes already holds what it writes. *)
Definition shown (draw : list Z -> list Z) (dbuf : list Z) : bool :=
  bool_decide (draw dbuf = dbuf).

(** The writes of [printcat] with the bytes written left open: [g k i] is
    the byte for glyph row [k] and column [i]. *)
Definition blit (g : Z -> Z -> Z) (x y width height : Z) (dbuf : list Z) : list Z :=
  fold_left (fun b k =>
    fold_left (fun b i =>
      let tmp := g k i in
      fold_left (fun b j => dbuf_set (x + (width * i + j) + (y + k) * DWIDTH) tmp b)
                (upto width) b)
      (upto FWIDTH) b)
    (upto height) dbuf.

(** The seconds field: the cells of the two glyphs [prints] draws
    (columns 0..2 and 4..6 of buffer line 2) and the column between. *)
Definition seconds_cells (dbuf : list Z) : list Z :=
  map (dbuf_get dbuf) [64; 65; 66; 67; 68; 69; 70].

(** Bit [i] of [v] sits at bits [2i] and [2i+1] of [expand4bit v], for
    the four bits of a nibble, and the result fits a byte. *)
Definition expand4bit_bits_ok (v : Z) : bool :=
  forallb (fun i =>
             Bool.eqb (Z.testbit (expand4bit v) (2 * i)) (Z.testbit v i)
             && Bool.eqb (Z.testbit (expand4bit v) (2 * i + 1)) (Z.testbit v i))
          (upto 4)
  && (0 <=? expand4bit v) && (expand4bit v <? 256).

(** The left column of the small glyph of the tens digit of [n] is
    neither blank nor the left column of the setting arrow. *)
Definition tens_col_ok (n : Z) : bool :=
  negb (glyphcol (to_byte (_tens n + FOFFSET)) 1 0 0 =? 0)
  && negb (glyphcol (to_byte (_tens n + FOFFSET)) 1 0 0 =? 4).

(** Passes of [loop] at time 1000 with the ADC reading 341 (3.3 V):
    button untouched, tapped, held. *)
Definition pass_idle : loop_input := mkInput 1000 false 1000 85 1 false.
Definition pass_short : loop_input := mkInput 1000 true 1000 85 1 false.
Definition pass_long : loop_input := mkInput 1000 true 1000 85 1 true.

(** The bytes [ddisplaypage] streams for a page: its loop over the
    columns. *)
Definition page_data (dbuf : list Z) (page : Z) : list Z :=
  flat_map (fun j =>
     let tmp := expand4bit
       (Z.land (Z.shiftr (dbuf_get dbuf ((page / 2) * DWIDTH + j))
                         ((page mod 2) * 4)) 0x0f) in
     [tmp; tmp]) (upto DWIDTH).

(** The data transactions of a bus log, in the order sent. *)
Definition data_sent (bus : list bus_event) : list (list Z) :=
  flat_map (fun e => match e with Data l => [l] | Cmd _ => [] end) bus.

(** Pixel ([X], [Y]) of a stack of pages: bit [Y mod 8] of byte [X] of
    page [Y / 8]. *)
Definition panel_pixel (pages : list (list Z)) (X Y : Z) : bool :=
  Z.testbit (nth (Z.to_nat X) (nth (Z.to_nat (Y / 8)) pages []) 0) (Y mod 8).

(** Pixel ([x], [y]) of the display buffer, addressed as the sketch's
    [printpixel] does: [dbuf[x + (y / 8) * DWIDTH]], bit [y % 8]. *)
Definition dbuf_pixel (dbuf : list Z) (x y : Z) : bool :=
  Z.testbit (dbuf_get dbuf (x + (y / 8) * DWIDTH)) (y mod 8).

(** The weekday field as [printscreen] draws it for day [wd], and the
    battery field for the reading [v]. *)
Definition printwday (wd : Z) (dbuf : list Z) : list Z :=
  printcat (pgm_read_byte wday (2 * wd + 1)) 15 2 1 1
    (printcat (pgm_read_byte wday (2 * wd)) 11 2 1 1 dbuf).

Definition printvcc (v : Z) (dbuf : list Z) : list Z :=
  printcat (to_byte (_tens v + FOFFSET)) 29 2 1 1
    (printcat (chr "=") 26 2 1 1
      (printcat (to_byte (_huns v + FOFFSET)) 23 2 1 1 dbuf)).

(** The second letter of every weekday name has a lit left column. *)
Definition wday_col_ok (wd : Z) : bool :=
  negb (glyphcol (pgm_read_byte wday (2 * wd + 1)) 1 0 0 =? 0).

(** The digit a short press advances in the setting states 2..5 sits at
    this column of the clock line: minutes' ones, minutes' tens, hours'
    ones, hours' tens ([printhm] draws the tens at [x], the ones at
    [x + 8], for hours at 0 and minutes at 18). *)
Definition digit_column (st : Z) : Z :=
  if st =? 2 then 18 + 8 else if st =? 3 then 18
  else if st =? 4 then 0 + 8 else 0.

(** The ranges the types and the code keep the statics in. *)
Definition wf (s : state) : Prop :=
  is_ulong (tim s) /\ is_ulong (outtime s) /\ is_ulong (wdtmillis s) /\
  0 <= setstate s <= 6 /\ 0 <= weekday s <= 6 /\
  -32768 <= vcc s < 32768 /\ length (dbuf s) = 96%nat.

(** What happens to the watch: a watchdog interrupt, a button edge at
    time [now], a pass of [loop]. *)
Inductive event : Type :=
| Tick
| Button (now : Z)
| Pass (inp : loop_input).

Definition step (s : state) (e : event) : state :=
  match e with
  | Tick => ISR_WDT s
  | Button now => ISR_PCINT0 now s
  | Pass inp => loop inp s
  end.

Definition run (evs : list event) (s : state) : state := fold_left step evs s.

Definition is_button (e : event) : bool :=
  match e with Button _ => true | _ => false end.
Definition is_tick (e : event) : bool :=
  match e with Tick => true | _ => false end.

(** The time the watch has counted: what is in [tim] and what waits in
    [wdtmillis]. *)
Definition counted (s : state) : Z := to_ulong (tim s + wdtmillis s).

(** The watchdog prescaler WDP3..WDP0 that a control value selects: bit 5
    and bits 2..0. *)
Definition prescaler (wv : Z) : Z :=
  (if Z.testbit wv 5 then 8 else 0) + Z.land wv 0x07.

(** What [batt] returns for the 10-bit ADC reading [adc], split into the
    two result registers (0 is left out: the division is undefined
    there): below 4 the quotient does not fit an [int] and comes out
    negative; from 4 on it is the quotient, between 110 and 28132, with
    decimal digits for the display. *)
Definition batt_ok (adc : Z) : bool :=
  let low := adc mod 256 in
  let high := adc / 256 in
  if adc =? 0 then true
  else if adc <? 4 then batt low high <? 0
  else (batt low high =? 112530 / adc)
       && (110 <=? batt low high) && (batt low high <=? 28132)
       && (0 <=? _huns (batt low high)) && (_huns (batt low high) <=? 9)
       && (0 <=? _tens (batt low high)) && (_tens (batt low high) <=? 9).

(** Character [c] has its three columns inside the font table. *)
Definition in_font (c : Z) : bool :=
  (0 <=? FWIDTH * (c - FOFFSET))
  && (FWIDTH * (c - FOFFSET) + (FWIDTH - 1) <? Z.of_nat (length font)).

Definition digit_in_font (d : Z) : bool := in_font (to_byte (d + FOFFSET)).

Definition wday_in_font (wd : Z) : bool :=
  in_font (pgm_read_byte wday (2 * wd)) && in_font (pgm_read_byte wday (2 * wd + 1)).

(** A millisecond clock read once per millisecond from [t] on: [n]
    successive values of [millis()]. *)
Definition clock (t : Z) (n : nat) : list Z :=
  map (fun k => to_ulong (t + Z.of_nat k)) (seq 0 n).

(** [setwatchdog(n)] selects the prescaler [n], at most 9, sets the
    change-enable bit and neither the reset-enable nor the interrupt bit,
    within a byte. *)
Definition setwatchdog_ok (n : Z) : bool :=
  (prescaler (setwatchdog_wv n) =? Z.min n 9)
  && Z.testbit (setwatchdog_wv n) WDCE
  && negb (Z.testbit (setwatchdog_wv n) WDE)
  && negb (Z.testbit (setwatchdog_wv n) WDIE)
  && (0 <=? setwatchdog_wv n) && (setwatchdog_wv n <? 256).

(** The character of the digit at [digit_column st], as [printhm] computes
    it from the minutes and the hours of time [t]. *)
Definition digit_above (st t : Z) : Z :=
  if st =? 2 then to_byte (_ones (to_byte (minutes t)) + FOFFSET)
  else if st =? 3 then to_byte (_tens (to_byte (minutes t)) + FOFFSET)
  else if st =? 4 then to_byte (_ones (to_byte (hours t)) + FOFFSET)
  else to_byte (_tens (to_byte (hours t)) + FOFFSET).

(** The bytes of the glyph of [c] at height [h], row by row. *)
Definition glyph_cols (c h : Z) : list Z :=
  flat_map (fun k => map (glyphcol c h k) (upto FWIDTH)) (upto h).

(** The cells that hold one copy of each byte of a double-size glyph
    drawn at column [x] of the clock line, and of a small glyph drawn at
    column [x] of the third line. *)
Definition big_cells (dbuf : list Z) (x : Z) : list Z :=
  map (dbuf_get dbuf) [x; x + 2; x + 4; x + 32; x + 34; x + 36].
Definition small_cells (dbuf : list Z) (x : Z) : list Z :=
  map (dbuf_get dbuf) [64 + x; 65 + x; 66 + x].

Definition list_eqb (l1 l2 : list Z) : bool :=
  (length l1 =? length l2)%nat
  && forallb (fun p => fst p =? snd p) (combine l1 l2).

(** No two decimal digits have the same glyph, small or double-size. *)
Definition digit_glyph_unique (a : Z) : bool :=
  forallb (fun b =>
             (a =? b)
             || (negb (list_eqb (glyph_cols (to_byte (a + FOFFSET)) 1)
                                (glyph_cols (to_byte (b + FOFFSET)) 1))
                 && negb (list_eqb (glyph_cols (to_byte (a + FOFFSET)) 2)
                                   (glyph_cols (to_byte (b + FOFFSET)) 2))))
          (upto 10).

(** The cells [printcat] writes for a glyph at ([x], [y]) with the given
    width and height, in the order of its loops, and the bytes it writes
    there for character [c]. *)
Definition field (dbuf : list Z) (x y width height : Z) : list Z :=
  flat_map (fun k =>
    flat_map (fun i =>
      map (fun j => dbuf_get dbuf (x + (width * i + j) + (y + k) * DWIDTH))
          (upto width))
      (upto FWIDTH))
    (upto height).

Definition glyph_field (c width height : Z) : list Z :=
  flat_map (fun k =>
    flat_map (fun i => map (fun _ => glyphcol c height k i) (upto width))
             (upto FWIDTH))
    (upto height).

(** No two decimal digits fill a field alike, small or double-size. *)
Definition digit_field_unique (a : Z) : bool :=
  forallb (fun b =>
             (a =? b)
             || (negb (list_eqb (glyph_field (to_byte (a + FOFFSET)) 1 1)
                                (glyph_field (to_byte (b + FOFFSET)) 1 1))
                 && negb (list_eqb (glyph_field (to_byte (a + FOFFSET)) 2 2)
                                   (glyph_field (to_byte (b + FOFFSET)) 2 2))))
          (upto 10).

(** The two statements of the drain, [tim += wdtmillis;] and
    [wdtmillis = 0;], with [k] watchdog interrupts taken between them. *)
Definition drain_window (k : nat) (s : state) : state :=
  let s := set_tim (to_ulong (tim s + wdtmillis s)) s in
  let s := Nat.iter k ISR_WDT s in
  set_wdtmillis 0 s.

(** A pass of [loop] with [k] watchdog interrupts taken between the two
    statements of the drain. *)
Definition loop_ticks (k : nat) (inp : loop_input) (s : state) : state :=
  if issleep s then s
  else if millis_check inp >? outtime s then setsleep s
  else
    let s := drain_window k s in
    let s := printscreen s in
    if pressed1 inp then
      let s := setdtimeout (millis_press inp) s in
      let s := set_vcc (batt (adcl inp) (adch inp)) s in
      if pressed2 inp then longpress s else shortpress s
    else s.

(** The cells at ([x], [y]) and four glyph columns to the right hold the
    glyphs of the tens and the ones digit of [n], the characters
    ['0' + n / 10] and ['0' + n mod 10] of the font. *)
Definition two_digits_at (dbuf : list Z) (x y width height n : Z) : Prop :=
  field dbuf x y width height = glyph_field (chr "0" + n / 10) width height /\
  field dbuf (x + 4 * width) y width height
  = glyph_field (chr "0" + n mod 10) width height.

(** [n] presses of a kind, one after the other. *)
Definition repeat_press (press : state -> state) (n : nat) (s : state) : state :=
  Nat.iter n press s.

(** A pass of [loop] that finds the watch awake and within the display
    time, and how it finds the button. *)
Definition awake (inp : loop_input) (s : state) : Prop :=
  issleep s = false /\ millis_check inp <= outtime s.
Definition no_press (inp : loop_input) : Prop := pressed1 inp = false.
Definition long_press (inp : loop_input) : Prop :=
  pressed1 inp = true /\ pressed2 inp = true.
Definition short_press (inp : loop_input) : Prop :=
  pressed1 inp = true /\ pressed2 inp = false.

(** * Properties *)

(** ** Bounded quantification by evaluation *)

Lemma in_upto (n x : Z) : 0 <= x < n -> In x (upto n).
Proof.
  intros Hx. unfold upto.
  replace x with (Z.of_nat (Z.to_nat x)) by lia.
  apply in_map, in_seq. lia.
Qed.

Lemma forall_upto (P : Z -> bool) (n : Z) :
  forallb P (upto n) = true -> forall x, 0 <= x < n -> P x = true.
Proof.
  intros H x Hx. rewrite forallb_forall in H. apply H, in_upto, Hx.
Qed.

(** ** Machine integers *)

Lemma to_ulong_range (x : Z) : is_ulong (to_ulong x).
Proof. unfold is_ulong, to_ulong. apply Z.mod_pos_bound. lia. Qed.

Lemma to_ulong_small (x : Z) : is_ulong x -> to_ulong x = x.
Proof. unfold is_ulong, to_ulong. intros H. apply Z.mod_small, H. Qed.

Lemma to_byte_small (x : Z) : is_byte x -> to_byte x = x.
Proof. unfold is_byte, to_byte. intros H. apply Z.mod_small, H. Qed.

Lemma to_byte_range (x : Z) : is_byte (to_byte x).
Proof. unfold is_byte, to_byte. apply Z.mod_pos_bound. lia. Qed.

(** The seconds-of-minute part never exceeds the time it is taken from. *)
Lemma secpart_le (t : Z) : 0 <= t -> 0 <= ((t / 1000) mod 60) * 1000 <= t.
Proof.
  intros Ht.
  assert (H1 : 0 <= (t / 1000) mod 60 < 60) by (apply Z.mod_pos_bound; lia).
  assert (H2 : (t / 1000) mod 60 <= t / 1000)
    by (apply Z.mod_le; [apply Z.div_pos|]; lia).
  assert (H3 : 1000 * (t / 1000) <= t) by (apply Z.mul_div_le; lia).
  lia.
Qed.

(** ** Frame lemmas of [printscreen] *)

Ltac fields :=
  cbn [andb orb negb tim outtime issleep setstate vcc wdtmillis weekday dbuf
       bus on_dbuf set_tim set_outtime set_issleep set_setstate set_vcc
       set_wdtmillis set_weekday set_dbuf set_bus] in *.

(** Case analysis on the tests of [setstate] that a goal exposes. *)
Ltac by_setstate :=
  repeat (fields;
          match goal with
          | |- context [setstate ?s =? ?k] =>
              is_var s; destruct (Z.eqb_spec (setstate s) k);
              try (exfalso; lia)
          | |- context [setstate ?s <? ?k] =>
              is_var s; destruct (Z.ltb_spec (setstate s) k);
              try (exfalso; lia)
          end);
  fields.

Lemma printscreen_tim (s : state) : tim (printscreen s) = tim s.
Proof. unfold printscreen. cbv zeta. by_setstate; reflexivity. Qed.

Lemma printscreen_setstate (s : state) : setstate (printscreen s) = setstate s.
Proof. unfold printscreen. cbv zeta. by_setstate; reflexivity. Qed.

Lemma printscreen_issleep (s : state) : issleep (printscreen s) = issleep s.
Proof. unfold printscreen. cbv zeta. by_setstate; reflexivity. Qed.

Lemma printscreen_outtime (s : state) : outtime (printscreen s) = outtime s.
Proof. unfold printscreen. cbv zeta. by_setstate; reflexivity. Qed.

Lemma printscreen_wdtmillis (s : state) : wdtmillis (printscreen s) = wdtmillis s.
Proof. unfold printscreen. cbv zeta. by_setstate; reflexivity. Qed.

Lemma printscreen_weekday (s : state) :
  weekday (printscreen s) =
  if (setstate s =? 0) || (setstate s =? 6)
  then to_byte (dayofweek (tim s)) else weekday s.
Proof. unfold printscreen. cbv zeta. by_setstate; reflexivity. Qed.

(** ** The passes of [loop] *)

(** Keep of [printscreen s0] only what the frame lemmas say, so that no
    later step looks into the drawing. *)
Ltac forget_printscreen s0 :=
  generalize (printscreen_tim s0) (printscreen_setstate s0)
             (printscreen_issleep s0) (printscreen_outtime s0)
             (printscreen_wdtmillis s0) (printscreen_weekday s0);
  generalize (printscreen s0);
  let p := fresh "p" in intros p ? ? ? ? ? ?.

(** What the button branch does before it tells the presses apart
    touches neither the time nor the setting state nor the weekday. *)
Lemma counted_prelude (v m : Z) (p : state) :
  counted (set_vcc v (setdtimeout m p)) = counted p.
Proof. reflexivity. Qed.

Lemma setstate_prelude (v m : Z) (p : state) :
  setstate (set_vcc v (setdtimeout m p)) = setstate p.
Proof. reflexivity. Qed.

Lemma weekday_prelude (v m : Z) (p : state) :
  weekday (set_vcc v (setdtimeout m p)) = weekday p.
Proof. reflexivity. Qed.

Lemma loop_nopress (inp : loop_input) (s : state) :
  awake inp s -> no_press inp -> loop inp s = printscreen (drain s).
Proof.
  intros [Hs Ht] H1. unfold loop. rewrite Hs, H1.
  destruct (Z.gtb_spec (millis_check inp) (outtime s)); [lia | reflexivity].
Qed.

Lemma loop_long (inp : loop_input) (s : state) :
  awake inp s -> long_press inp ->
  loop inp s = longpress (set_vcc (batt (adcl inp) (adch inp))
                 (setdtimeout (millis_press inp) (printscreen (drain s)))).
Proof.
  intros [Hs Ht] [H1 H2]. unfold loop. rewrite Hs, H1, H2.
  destruct (Z.gtb_spec (millis_check inp) (outtime s)); [lia | reflexivity].
Qed.

Lemma loop_short (inp : loop_input) (s : state) :
  awake inp s -> short_press inp ->
  loop inp s = shortpress (set_vcc (batt (adcl inp) (adch inp))
                 (setdtimeout (millis_press inp) (printscreen (drain s)))).
Proof.
  intros [Hs Ht] [H1 H2]. unfold loop. rewrite Hs, H1, H2.
  destruct (Z.gtb_spec (millis_check inp) (outtime s)); [lia | reflexivity].
Qed.

Lemma loop_timeout (inp : loop_input) (s : state) :
  issleep s = false -> outtime s < millis_check inp -> loop inp s = setsleep s.
Proof.
  intros Hs Ht. unfold loop. rewrite Hs.
  destruct (Z.gtb_spec (millis_check inp) (outtime s)); [reflexivity | lia].
Qed.

(** ** Nibble expansion *)

Lemma expand4bit_bits_ok_all : forallb expand4bit_bits_ok (upto 16) = true.
Proof. vm_compute. reflexivity. Qed.

(** C9: for every 4-bit input [v], bit [i] of [v] is copied to bits [2i]
    and [2i+1] of [expand4bit v], the result is an 8-bit value, and the
    sixteen results are the table 0000abcd -> aabbccdd (0b0000 gives 0x00,
    0b1111 gives 0xFF). *)
Theorem expand4bit_doubles_bits :
  forall v, 0 <= v < 16 ->
    (forall i, 0 <= i < 4 ->
       Z.testbit (expand4bit v) (2 * i) = Z.testbit v i /\
       Z.testbit (expand4bit v) (2 * i + 1) = Z.testbit v i) /\
    0 <= expand4bit v < 256 /\
    nth_error [0x00; 0x03; 0x0C; 0x0F; 0x30; 0x33; 0x3C; 0x3F;
               0xC0; 0xC3; 0xCC; 0xCF; 0xF0; 0xF3; 0xFC; 0xFF] (Z.to_nat v)
    = Some (expand4bit v).
Proof.
  intros v Hv.
  pose proof (forall_upto _ _ expand4bit_bits_ok_all v Hv) as H.
  unfold expand4bit_bits_ok in H.
  apply andb_prop in H as [H Hhi]. apply andb_prop in H as [H Hlo].
  apply Z.leb_le in Hlo. apply Z.ltb_lt in Hhi.
  split; [|split; [lia|]].
  - intros i Hi.
    pose proof (forall_upto _ _ H i Hi) as Hb. cbv beta in Hb.
    apply andb_prop in Hb as [Hb1 Hb2].
    apply Bool.eqb_prop in Hb1, Hb2. auto.
  - assert (Hc : v = 0 \/ v = 1 \/ v = 2 \/ v = 3 \/ v = 4 \/ v = 5 \/ v = 6 \/
                 v = 7 \/ v = 8 \/ v = 9 \/ v = 10 \/ v = 11 \/ v = 12 \/
                 v = 13 \/ v = 14 \/ v = 15) by lia.
    repeat destruct Hc as [-> | Hc]; try subst v; reflexivity.
Qed.

Lemma expand4bit_doubles_bits_witness :
  0 <= 5 < 16 /\
  ((forall i, 0 <= i < 4 ->
      Z.testbit (expand4bit 5) (2 * i) = Z.testbit 5 i /\
      Z.testbit (expand4bit 5) (2 * i + 1) = Z.testbit 5 i) /\
   0 <= expand4bit 5 < 256 /\
   nth_error [0x00; 0x03; 0x0C; 0x0F; 0x30; 0x33; 0x3C; 0x3F;
              0xC0; 0xC3; 0xCC; 0xCF; 0xF0; 0xF3; 0xFC; 0xFF] (Z.to_nat 5)
   = Some (expand4bit 5)).
Proof. split; [lia | apply (expand4bit_doubles_bits 5); lia]. Defined.

(** ** Filling the buffer *)

Lemma dbuffill_prefix (n : Z) (k : nat) (d : list Z) :
  (k <= length d)%nat ->
  fold_left (fun b i => dbuf_set i n b) (map Z.of_nat (seq 0 k)) d
  = replicate k n ++ drop k d.
Proof.
  induction k as [|k IH]; intros Hk.
  - reflexivity.
  - rewrite seq_S, map_app, fold_left_app, IH by lia.
    cbn [map fold_left Nat.add]. unfold dbuf_set. rewrite Nat2Z.id.
    destruct (lookup_lt_is_Some_2 d k ltac:(lia)) as [y Hy].
    rewrite insert_app_r_alt by (rewrite length_replicate; lia).
    rewrite length_replicate, Nat.sub_diag, (drop_S _ _ _ Hy).
    cbn [insert list_insert]. rewrite replicate_S_end, <- app_assoc.
    reflexivity.
Qed.

Lemma dbuffill_replicate (n : Z) (d : list Z) :
  length d = 96%nat -> dbuffill n d = replicate 96 n.
Proof.
  intros Hd. unfold dbuffill, upto.
  change (Z.to_nat (DWIDTH * DLINES)) with 96%nat.
  rewrite dbuffill_prefix by lia.
  rewrite drop_ge by lia. apply app_nil_r.
Qed.

Lemma display_on_snoc (b : list bus_event) (c : Z) :
  display_on (dsendcmd c b) =
  if c =? 0xAF then true else if c =? 0xAE then false else display_on b.
Proof. unfold display_on, dsendcmd. rewrite fold_left_app. reflexivity. Qed.

(** ** Sleep and wake *)

(** C7: entering sleep leaves the setting state 0 and every byte of the
    display buffer 0, whatever they were; it sends the display-off command
    and sets [issleep].  A pass of [loop] taken awake after the display
    time has run out is exactly this transition. *)
Theorem setsleep_resets (s : state) :
  length (dbuf s) = 96%nat ->
  setstate (setsleep s) = 0 /\
  dbuf (setsleep s) = replicate 96 0 /\
  Forall (fun b => b = 0) (dbuf (setsleep s)) /\
  bus (setsleep s) = bus s ++ [Cmd [0xAE]] /\
  display_on (bus (setsleep s)) = false /\
  issleep (setsleep s) = true /\
  (forall inp, issleep s = false -> outtime s < millis_check inp ->
               loop inp s = setsleep s).
Proof.
  intros Hd.
  assert (Hb : dbuf (setsleep s) = replicate 96 0)
    by (unfold setsleep; fields; apply dbuffill_replicate, Hd).
  split; [reflexivity|].
  split; [exact Hb|].
  split; [rewrite Hb; apply Forall_replicate; reflexivity|].
  split; [reflexivity|].
  split; [unfold setsleep, doff; fields; rewrite display_on_snoc; reflexivity|].
  split; [reflexivity|].
  intros inp Hs Ht. apply loop_timeout; assumption.
Qed.

Lemma setsleep_resets_witness :
  length (dbuf demo_state) = 96%nat /\
  (setstate (setsleep demo_state) = 0 /\
   dbuf (setsleep demo_state) = replicate 96 0 /\
   Forall (fun b => b = 0) (dbuf (setsleep demo_state)) /\
   bus (setsleep demo_state) = bus demo_state ++ [Cmd [0xAE]] /\
   display_on (bus (setsleep demo_state)) = false /\
   issleep (setsleep demo_state) = true /\
   (forall inp, issleep demo_state = false ->
                outtime demo_state < millis_check inp ->
                loop inp demo_state = setsleep demo_state)).
Proof.
  split; [reflexivity | apply (setsleep_resets demo_state); reflexivity].
Defined.

(** The button-edge interrupt taken asleep, with the deadline as the
    32-bit sum the code computes. *)
Lemma ISR_PCINT0_asleep (now : Z) (s : state) :
  issleep s = true ->
  issleep (ISR_PCINT0 now s) = false /\
  bus (ISR_PCINT0 now s) = bus s ++ [Cmd [0xAF]] /\
  display_on (bus (ISR_PCINT0 now s)) = true /\
  outtime (ISR_PCINT0 now s) = (now + TIMEOUT) mod 4294967296.
Proof.
  intros Hs. unfold ISR_PCINT0. rewrite Hs. unfold setdtimeout, don. fields.
  rewrite display_on_snoc. repeat split.
Qed.

(** C8, as stated, fails when [millis() + TIMEOUT] does not fit 32 bits:
    a wake at [millis() = 4294967295] sets the deadline to 4999, far below
    the wake time plus [TIMEOUT]. *)
Lemma wake_deadline_wraps :
  issleep (setsleep demo_state) = true /\
  outtime (ISR_PCINT0 4294967295 (setsleep demo_state)) = 4999 /\
  ~ (4294967295 + TIMEOUT <= outtime (ISR_PCINT0 4294967295 (setsleep demo_state))).
Proof.
  split; [reflexivity|]. split; [reflexivity|].
  vm_compute. intros H. apply H. reflexivity.
Qed.

(** C8 (amended): a button-edge interrupt taken while [issleep] is set
    clears [issleep], sends the display-on command, and sets [outtime] to
    the wake time plus [TIMEOUT] modulo 2^32; so the deadline is no earlier
    than wake time plus [TIMEOUT] (it is equal to it) whenever that sum
    fits 32 bits. *)
Theorem wake_sets_deadline (now : Z) (s : state) :
  issleep s = true -> is_ulong now ->
  issleep (ISR_PCINT0 now s) = false /\
  display_on (bus (ISR_PCINT0 now s)) = true /\
  outtime (ISR_PCINT0 now s) = (now + TIMEOUT) mod 4294967296 /\
  (now + TIMEOUT < 4294967296 ->
   now + TIMEOUT <= outtime (ISR_PCINT0 now s) /\
   outtime (ISR_PCINT0 now s) = now + TIMEOUT).
Proof.
  intros Hs Hn.
  destruct (ISR_PCINT0_asleep now s Hs) as (H1 & _ & H3 & H4).
  repeat split; try assumption.
  - rewrite H4, Z.mod_small; [lia|]. unfold is_ulong, TIMEOUT in *. lia.
  - rewrite H4. apply Z.mod_small. unfold is_ulong, TIMEOUT in *. lia.
Qed.

Lemma wake_sets_deadline_witness :
  issleep (setsleep demo_state) = true /\ is_ulong 123456 /\
  (issleep (ISR_PCINT0 123456 (setsleep demo_state)) = false /\
   display_on (bus (ISR_PCINT0 123456 (setsleep demo_state))) = true /\
   outtime (ISR_PCINT0 123456 (setsleep demo_state)) = (123456 + TIMEOUT) mod 4294967296 /\
   (123456 + TIMEOUT < 4294967296 ->
    123456 + TIMEOUT <= outtime (ISR_PCINT0 123456 (setsleep demo_state)) /\
    outtime (ISR_PCINT0 123456 (setsleep demo_state)) = 123456 + TIMEOUT)).
Proof.
  split; [reflexivity|]. split; [unfold is_ulong; lia|].
  apply (wake_sets_deadline 123456 (setsleep demo_state));
    [reflexivity | unfold is_ulong; lia].
Defined.

(** ** Long press: the setting state *)

Lemma longpress_setstate (s : state) :
  setstate (longpress s) = if setstate s >? 5 then 0 else to_byte (setstate s + 1).
Proof. unfold longpress. destruct (setstate s >? 5); reflexivity. Qed.

Lemma longpress_next (s : state) :
  0 <= setstate s <= 6 -> setstate (longpress s) = (setstate s + 1) mod 7.
Proof.
  intros H. rewrite longpress_setstate.
  destruct (Z.gtb_spec (setstate s) 5) as [Hgt | Hle].
  - replace (setstate s) with 6 by lia. reflexivity.
  - rewrite to_byte_small by (unfold is_byte; lia).
    symmetry. apply Z.mod_small. lia.
Qed.

Lemma longpress_repeat (n : nat) (s : state) :
  0 <= setstate s <= 6 ->
  setstate (repeat_press longpress n s) = (setstate s + Z.of_nat n) mod 7.
Proof.
  intros H. unfold repeat_press. induction n as [|n IH].
  - change (Nat.iter 0 longpress s) with s.
    rewrite Z.add_0_r. symmetry. apply Z.mod_small. lia.
  - rewrite Nat.iter_succ, longpress_next.
    + rewrite IH, Zplus_mod_idemp_l. f_equal. lia.
    + rewrite IH.
      pose proof (Z.mod_pos_bound (setstate s + Z.of_nat n) 7 ltac:(lia)). lia.
Qed.

Lemma loop_longpress (inp : loop_input) (s : state) :
  awake inp s -> long_press inp ->
  setstate (loop inp s) = setstate (longpress s).
Proof.
  intros Ha Hl. rewrite (loop_long _ _ Ha Hl).
  forget_printscreen (drain s). rewrite !longpress_setstate.
  unfold setdtimeout, drain in *. fields.
  replace (setstate p) with (setstate s) by congruence. reflexivity.
Qed.

(** C5: from every setting state in 0..6 a long press leads to the next
    state cyclically: [n] long presses lead from state [k] to
    [(k + n) mod 7], so from 0 the states run 0,1,2,3,4,5,6,0; no state
    outside 0..6 is ever reached, and 6 is followed by 0.  The pass of
    [loop] that sees a long press makes exactly this step. *)
Theorem longpress_cycles (s : state) :
  0 <= setstate s <= 6 ->
  setstate (longpress s) = (setstate s + 1) mod 7 /\
  (setstate s = 6 -> setstate (longpress s) = 0) /\
  (forall n, setstate (repeat_press longpress n s) = (setstate s + Z.of_nat n) mod 7 /\
             0 <= setstate (repeat_press longpress n s) <= 6) /\
  map (fun n => setstate (repeat_press longpress n (set_setstate 0 s))) (seq 0 8)
  = [0; 1; 2; 3; 4; 5; 6; 0] /\
  (forall inp, awake inp s -> long_press inp ->
               setstate (loop inp s) = (setstate s + 1) mod 7).
Proof.
  intros H.
  split; [apply longpress_next, H|].
  split; [intros H6; rewrite longpress_next, H6 by exact H; reflexivity|].
  split.
  { intros n. rewrite longpress_repeat by exact H. split; [reflexivity|].
    pose proof (Z.mod_pos_bound (setstate s + Z.of_nat n) 7 ltac:(lia)). lia. }
  split.
  { vm_compute. reflexivity. }
  intros inp Ha Hl. rewrite (loop_longpress _ _ Ha Hl). apply longpress_next, H.
Qed.

Lemma longpress_cycles_witness :
  0 <= setstate demo_state <= 6 /\
  (setstate (longpress demo_state) = (setstate demo_state + 1) mod 7 /\
   (setstate demo_state = 6 -> setstate (longpress demo_state) = 0) /\
   (forall n, setstate (repeat_press longpress n demo_state)
              = (setstate demo_state + Z.of_nat n) mod 7 /\
              0 <= setstate (repeat_press longpress n demo_state) <= 6) /\
   map (fun n => setstate (repeat_press longpress n (set_setstate 0 demo_state)))
       (seq 0 8)
   = [0; 1; 2; 3; 4; 5; 6; 0] /\
   (forall inp, awake inp demo_state -> long_press inp ->
                setstate (loop inp demo_state) = (setstate demo_state + 1) mod 7)).
Proof.
  split; [cbn; lia | apply (longpress_cycles demo_state); cbn; lia].
Defined.

(** ** Short press: the edits *)

Lemma shortpress_tim (s : state) :
  tim (shortpress s) =
  if setstate s =? 1
  then to_ulong (tim s - to_ulong (((tim s / 1000) mod 60) * 1000))
  else if setstate s =? 2 then to_ulong (tim s + 60000)
  else if setstate s =? 3 then to_ulong (tim s + 600000)
  else if setstate s =? 4 then to_ulong (tim s + 3600000)
  else if setstate s =? 5 then to_ulong (tim s + 36000000)
  else tim s.
Proof.
  unfold shortpress.
  destruct (setstate s =? 1), (setstate s =? 2), (setstate s =? 3),
    (setstate s =? 4), (setstate s =? 5), (setstate s =? 6),
    (weekday s >? 5); reflexivity.
Qed.

Lemma shortpress_setstate (s : state) : setstate (shortpress s) = setstate s.
Proof.
  unfold shortpress.
  destruct (setstate s =? 1), (setstate s =? 2), (setstate s =? 3),
    (setstate s =? 4), (setstate s =? 5), (setstate s =? 6),
    (weekday s >? 5); reflexivity.
Qed.

Lemma shortpress_weekday (s : state) :
  weekday (shortpress s) =
  if setstate s =? 6
  then (if weekday s >? 5 then 0 else to_byte (weekday s + 1))
  else weekday s.
Proof.
  unfold shortpress.
  destruct (Z.eqb_spec (setstate s) 1), (Z.eqb_spec (setstate s) 2),
    (Z.eqb_spec (setstate s) 3), (Z.eqb_spec (setstate s) 4),
    (Z.eqb_spec (setstate s) 5), (Z.eqb_spec (setstate s) 6),
    (weekday s >? 5); try reflexivity; exfalso; lia.
Qed.

Lemma reset_seconds_exact (t : Z) :
  is_ulong t ->
  to_ulong (t - to_ulong (((t / 1000) mod 60) * 1000))
  = t - ((t / 1000) mod 60) * 1000.
Proof.
  unfold is_ulong. intros Ht.
  pose proof (secpart_le t ltac:(lia)) as Hs.
  rewrite (to_ulong_small (_ * 1000)) by (unfold is_ulong; lia).
  apply to_ulong_small. unfold is_ulong. lia.
Qed.

Lemma loop_shortpress_tim (inp : loop_input) (s : state) :
  awake inp s -> short_press inp ->
  tim (loop inp s) = tim (shortpress (drain s)).
Proof.
  intros Ha Hp. rewrite (loop_short _ _ Ha Hp).
  forget_printscreen (drain s). rewrite !shortpress_tim.
  unfold setdtimeout in *. fields.
  replace (setstate p) with (setstate (drain s)) by congruence.
  replace (tim p) with (tim (drain s)) by congruence. reflexivity.
Qed.

(** C3: what a short press does to the elapsed time, by setting state:
    in state 1 it becomes [tim - ((tim/1000) mod 60) * 1000] (125743 gives
    120743); in states 2, 3, 4, 5 the press adds 60000, 600000, 3600000,
    36000000 in 32-bit unsigned arithmetic (the plain sum when it fits); in
    state 0 it is unchanged.  The pass of [loop] that sees a short press
    applies this edit to the drained time. *)
Theorem shortpress_dispatch (s : state) :
  is_ulong (tim s) ->
  (setstate s = 1 ->
     tim (shortpress s) = tim s - ((tim s / 1000) mod 60) * 1000) /\
  (setstate s = 2 ->
     tim (shortpress s) = to_ulong (tim s + 60000) /\
     (tim s + 60000 < 4294967296 -> tim (shortpress s) = tim s + 60000)) /\
  (setstate s = 3 ->
     tim (shortpress s) = to_ulong (tim s + 600000) /\
     (tim s + 600000 < 4294967296 -> tim (shortpress s) = tim s + 600000)) /\
  (setstate s = 4 ->
     tim (shortpress s) = to_ulong (tim s + 3600000) /\
     (tim s + 3600000 < 4294967296 -> tim (shortpress s) = tim s + 3600000)) /\
  (setstate s = 5 ->
     tim (shortpress s) = to_ulong (tim s + 36000000) /\
     (tim s + 36000000 < 4294967296 -> tim (shortpress s) = tim s + 36000000)) /\
  (setstate s = 0 -> tim (shortpress s) = tim s) /\
  tim (shortpress (set_setstate 1 (set_tim 125743 s))) = 120743 /\
  (forall inp, awake inp s -> short_press inp ->
               tim (loop inp s) = tim (shortpress (drain s))).
Proof.
  intros Ht. pose proof Ht as Ht'. unfold is_ulong in Ht'.
  assert (Hadd : forall d, 0 <= d -> tim s + d < 4294967296 ->
                           to_ulong (tim s + d) = tim s + d)
    by (intros d Hd Hfit; apply to_ulong_small; unfold is_ulong; lia).
  split.
  { intros E. rewrite shortpress_tim, E. cbn [Z.eqb Pos.eqb].
    apply reset_seconds_exact, Ht. }
  split.
  { intros E. rewrite shortpress_tim, E. cbn [Z.eqb Pos.eqb].
    split; [reflexivity | intros; apply Hadd; lia]. }
  split.
  { intros E. rewrite shortpress_tim, E. cbn [Z.eqb Pos.eqb].
    split; [reflexivity | intros; apply Hadd; lia]. }
  split.
  { intros E. rewrite shortpress_tim, E. cbn [Z.eqb Pos.eqb].
    split; [reflexivity | intros; apply Hadd; lia]. }
  split.
  { intros E. rewrite shortpress_tim, E. cbn [Z.eqb Pos.eqb].
    split; [reflexivity | intros; apply Hadd; lia]. }
  split.
  { intros E. rewrite shortpress_tim, E. reflexivity. }
  split.
  { rewrite shortpress_tim. reflexivity. }
  intros inp Ha Hp. apply loop_shortpress_tim; assumption.
Qed.

Lemma shortpress_dispatch_witness :
  is_ulong (tim demo_state) /\
  ((setstate demo_state = 1 ->
      tim (shortpress demo_state)
      = tim demo_state - ((tim demo_state / 1000) mod 60) * 1000) /\
   (setstate demo_state = 2 ->
      tim (shortpress demo_state) = to_ulong (tim demo_state + 60000) /\
      (tim demo_state + 60000 < 4294967296 ->
       tim (shortpress demo_state) = tim demo_state + 60000)) /\
   (setstate demo_state = 3 ->
      tim (shortpress demo_state) = to_ulong (tim demo_state + 600000) /\
      (tim demo_state + 600000 < 4294967296 ->
       tim (shortpress demo_state) = tim demo_state + 600000)) /\
   (setstate demo_state = 4 ->
      tim (shortpress demo_state) = to_ulong (tim demo_state + 3600000) /\
      (tim demo_state + 3600000 < 4294967296 ->
       tim (shortpress demo_state) = tim demo_state + 3600000)) /\
   (setstate demo_state = 5 ->
      tim (shortpress demo_state) = to_ulong (tim demo_state + 36000000) /\
      (tim demo_state + 36000000 < 4294967296 ->
       tim (shortpress demo_state) = tim demo_state + 36000000)) /\
   (setstate demo_state = 0 -> tim (shortpress demo_state) = tim demo_state) /\
   tim (shortpress (set_setstate 1 (set_tim 125743 demo_state))) = 120743 /\
   (forall inp, awake inp demo_state -> short_press inp ->
                tim (loop inp demo_state) = tim (shortpress (drain demo_state)))).
Proof.
  split; [unfold is_ulong; cbn; lia
         | apply (shortpress_dispatch demo_state); unfold is_ulong; cbn; lia].
Defined.

(** ** Adding ten hours, and the 32-bit time *)

Lemma to_ulong_add_l (a b : Z) : to_ulong (to_ulong a + b) = to_ulong (a + b).
Proof. unfold to_ulong. apply Zplus_mod_idemp_l. Qed.

Lemma add10h_repeat (n : nat) (s : state) :
  setstate s = 5 -> is_ulong (tim s) ->
  setstate (repeat_press shortpress n s) = 5 /\
  tim (repeat_press shortpress n s) = to_ulong (tim s + Z.of_nat n * 36000000).
Proof.
  intros H5 Ht. unfold repeat_press. induction n as [|n [IHs IHt]].
  - change (Nat.iter 0 shortpress s) with s. split; [exact H5|].
    rewrite Z.add_0_r. symmetry. apply to_ulong_small, Ht.
  - rewrite Nat.iter_succ. split.
    + rewrite shortpress_setstate. exact IHs.
    + rewrite shortpress_tim, IHs, IHt. cbn [Z.eqb Pos.eqb].
      rewrite to_ulong_add_l. f_equal. lia.
Qed.

Lemma hours_of_period (fmt t : Z) :
  hours_of fmt (t + fmt * 36000000) = hours_of fmt t.
Proof.
  unfold hours_of. rewrite !Z.div_div by lia.
  replace (t + fmt * 36000000) with (t + (10 * fmt) * (1000 * 60 * 60)) by lia.
  rewrite Z.div_add by lia.
  apply Z_mod_plus_full.
Qed.

(** C6, as stated, fails near the top of the 32-bit range: from
    [tim = 4294967295] (hours 17) twenty-four presses in state 5 wrap the
    time to 863999999, which shows hours 23. *)
Lemma add10h_wraps_hours :
  setstate (set_setstate 5 (set_tim 4294967295 init_state)) = 5 /\
  hours (tim (set_setstate 5 (set_tim 4294967295 init_state))) = 17 /\
  tim (repeat_press shortpress (Z.to_nat TIME1224)
         (set_setstate 5 (set_tim 4294967295 init_state))) = 863999999 /\
  hours (tim (repeat_press shortpress (Z.to_nat TIME1224)
                (set_setstate 5 (set_tim 4294967295 init_state))))
  <> hours (tim (set_setstate 5 (set_tim 4294967295 init_state))).
Proof. vm_compute. repeat split; discriminate. Qed.

(** C6 (amended): in state 5, for every elapsed time for which the sum
    with [fmt] times 36000000 still fits 32 bits, pressing short [fmt]
    times returns the hours shown in hour format [fmt] to their value; in
    particular for the configured format [TIME1224] and for 12. *)
Theorem add10h_hours_return (s : state) (fmt : Z) :
  setstate s = 5 -> is_ulong (tim s) -> 0 <= fmt ->
  tim s + fmt * 36000000 < 4294967296 ->
  tim (repeat_press shortpress (Z.to_nat fmt) s) = tim s + fmt * 36000000 /\
  hours_of fmt (tim (repeat_press shortpress (Z.to_nat fmt) s)) = hours_of fmt (tim s) /\
  (fmt = TIME1224 ->
   hours (tim (repeat_press shortpress (Z.to_nat TIME1224) s)) = hours (tim s)).
Proof.
  intros H5 Ht Hf Hfit. pose proof Ht as Ht'. unfold is_ulong in Ht'.
  destruct (add10h_repeat (Z.to_nat fmt) s H5 Ht) as [_ Htim].
  assert (E : tim (repeat_press shortpress (Z.to_nat fmt) s) = tim s + fmt * 36000000).
  { rewrite Htim, Z2Nat.id by lia.
    apply to_ulong_small. unfold is_ulong. lia. }
  split; [exact E|]. split.
  - rewrite E. apply hours_of_period.
  - intros ->. unfold hours. rewrite E. apply hours_of_period.
Qed.

Lemma add10h_hours_return_witness :
  setstate (set_setstate 5 demo_state) = 5 /\
  is_ulong (tim (set_setstate 5 demo_state)) /\ 0 <= 24 /\
  tim (set_setstate 5 demo_state) + 24 * 36000000 < 4294967296 /\
  (tim (repeat_press shortpress (Z.to_nat 24) (set_setstate 5 demo_state))
   = tim (set_setstate 5 demo_state) + 24 * 36000000 /\
   hours_of 24 (tim (repeat_press shortpress (Z.to_nat 24) (set_setstate 5 demo_state)))
   = hours_of 24 (tim (set_setstate 5 demo_state)) /\
   (24 = TIME1224 ->
    hours (tim (repeat_press shortpress (Z.to_nat TIME1224) (set_setstate 5 demo_state)))
    = hours (tim (set_setstate 5 demo_state)))).
Proof.
  split; [reflexivity|]. split; [unfold is_ulong; cbn; lia|].
  split; [lia|]. split; [cbn; lia|].
  apply (add10h_hours_return (set_setstate 5 demo_state) 24);
    [reflexivity | unfold is_ulong; cbn; lia | lia | cbn; lia].
Defined.

Lemma shortpress_tim_range (s : state) :
  is_ulong (tim s) -> is_ulong (tim (shortpress s)).
Proof.
  intros Ht. rewrite shortpress_tim.
  destruct (setstate s =? 1), (setstate s =? 2), (setstate s =? 3),
    (setstate s =? 4), (setstate s =? 5);
    first [apply to_ulong_range | exact Ht].
Qed.

Lemma loop_tim_range (inp : loop_input) (s : state) :
  is_ulong (tim s) -> is_ulong (tim (loop inp s)).
Proof.
  intros Ht. unfold loop.
  destruct (issleep s); [exact Ht|].
  destruct (millis_check inp >? outtime s); [exact Ht|].
  cbv zeta. forget_printscreen (drain s).
  assert (Hp : is_ulong (tim p)).
  { replace (tim p) with (tim (drain s)) by congruence. apply to_ulong_range. }
  destruct (pressed1 inp); [|exact Hp].
  destruct (pressed2 inp).
  - unfold longpress, setdtimeout.
    destruct (_ >? 5); exact Hp.
  - apply shortpress_tim_range. exact Hp.
Qed.

(** C10: [tim] is a 32-bit unsigned value.  Draining the tick residue,
    every add-edit and the reset of the seconds give their result modulo
    2^32, and [tim] stays below 2^32 through every pass of [loop].  2^32 ms
    are 49 days and 61367296 ms; a drain that crosses it leaves the sum
    less 2^32, a value below the old one, and hours, minutes, seconds and
    weekday are derived from that value, not from the true sum: at
    [tim = 4294967295] a residue of 30000001 ms changes the display from
    17:02:47 on day 0 to 08:20:00 on day 0, where the true sum would show
    01:22:47 on day 1. *)
Theorem tim_is_modulo_2_32 (s : state) :
  is_ulong (tim s) -> is_ulong (wdtmillis s) ->
  tim (drain s) = (tim s + wdtmillis s) mod 2 ^ 32 /\
  (setstate s = 1 ->
     tim (shortpress s)
     = (tim s - (((tim s / 1000) mod 60) * 1000) mod 2 ^ 32) mod 2 ^ 32) /\
  (setstate s = 2 -> tim (shortpress s) = (tim s + 60000) mod 2 ^ 32) /\
  (setstate s = 3 -> tim (shortpress s) = (tim s + 600000) mod 2 ^ 32) /\
  (setstate s = 4 -> tim (shortpress s) = (tim s + 3600000) mod 2 ^ 32) /\
  (setstate s = 5 -> tim (shortpress s) = (tim s + 36000000) mod 2 ^ 32) /\
  (forall inp, 0 <= tim (loop inp s) < 2 ^ 32) /\
  (2 ^ 32 <= tim s + wdtmillis s ->
     tim (drain s) = tim s + wdtmillis s - 2 ^ 32 /\ tim (drain s) < tim s) /\
  2 ^ 32 = 49 * 86400000 + 61367296 /\
  (let before := set_wdtmillis 30000001 (set_tim 4294967295 s) in
   let after := tim (drain before) in
   let sum := tim before + wdtmillis before in
   after = 30000000 /\
   (hours (tim before), minutes (tim before), seconds (tim before),
    dayofweek (tim before)) = (17, 2, 47, 0) /\
   (hours after, minutes after, seconds after, dayofweek after) = (8, 20, 0, 0) /\
   (hours sum, minutes sum, seconds sum, dayofweek sum) = (1, 22, 47, 1)).
Proof.
  intros Ht Hw. change (2 ^ 32) with 4294967296.
  pose proof Ht as Ht'. pose proof Hw as Hw'. unfold is_ulong in Ht', Hw'.
  split; [reflexivity|].
  split; [intros E; rewrite shortpress_tim, E; reflexivity|].
  split; [intros E; rewrite shortpress_tim, E; reflexivity|].
  split; [intros E; rewrite shortpress_tim, E; reflexivity|].
  split; [intros E; rewrite shortpress_tim, E; reflexivity|].
  split; [intros E; rewrite shortpress_tim, E; reflexivity|].
  split; [intros inp; apply (loop_tim_range inp s Ht)|].
  split.
  { intros Hc.
    assert (E : tim (drain s) = tim s + wdtmillis s - 4294967296).
    { unfold drain, to_ulong. fields.
      rewrite <- (Z_mod_plus_full _ (-1)).
      apply Z.mod_small. lia. }
    split; [exact E | lia]. }
  split; [reflexivity|].
  vm_compute. repeat split.
Qed.

Lemma tim_is_modulo_2_32_witness :
  is_ulong (tim (set_wdtmillis 1072 demo_state)) /\
  is_ulong (wdtmillis (set_wdtmillis 1072 demo_state)) /\
  tim (drain (set_wdtmillis 1072 demo_state)) = 3662072.
Proof.
  split; [unfold is_ulong; cbn; lia|]. split; [unfold is_ulong; cbn; lia|].
  destruct (tim_is_modulo_2_32 (set_wdtmillis 1072 demo_state)) as [H _];
    [unfold is_ulong; cbn; lia | unfold is_ulong; cbn; lia |].
  rewrite H. reflexivity.
Defined.

(** ** The display buffer after [printscreen] *)

Lemma printcat_blit (c x y w h : Z) (d : list Z) :
  printcat c x y w h d = blit (glyphcol c h) x y w h d.
Proof. reflexivity. Qed.

(** Replace the glyphs that depend on the time or the voltage by unknown
    ones: where they land does not depend on them. *)
Ltac forget_glyphs :=
  repeat match goal with
         | |- context [blit (glyphcol ?c ?h)] =>
             lazymatch c with
             | context [tim _] => idtac
             | context [vcc _] => idtac
             end;
             generalize (glyphcol c h); intro
         end.

Ltac draw :=
  unfold printhm, prints, printarrow; rewrite ?printcat_blit; forget_glyphs.

Lemma tens_col_ok_all : forallb tens_col_ok (upto 256) = true.
Proof. vm_compute. reflexivity. Qed.

Lemma seconds_range (t : Z) : 0 <= to_byte (seconds t) < 256.
Proof. apply to_byte_range. Qed.

Lemma printscreen_length (s : state) :
  length (dbuf s) = 96%nat -> length (dbuf (printscreen s)) = 96%nat.
Proof.
  intros Hd. unfold printscreen. cbv zeta. by_setstate.
  all: rewrite (dbuffill_replicate _ _ Hd); draw; vm_compute; reflexivity.
Qed.

Lemma printscreen_shows_hm (s : state) :
  length (dbuf s) = 96%nat ->
  printhm (to_byte (hours (tim s))) 0 (dbuf (printscreen s)) = dbuf (printscreen s) /\
  printhm (to_byte (minutes (tim s))) 18 (dbuf (printscreen s)) = dbuf (printscreen s).
Proof.
  intros Hd. unfold printscreen. cbv zeta. by_setstate.
  all: rewrite (dbuffill_replicate _ _ Hd); draw; vm_compute; split; reflexivity.
Qed.

Lemma printscreen_shows_s (s : state) :
  length (dbuf s) = 96%nat -> setstate s < 2 ->
  prints (to_byte (seconds (tim s))) (dbuf (printscreen s)) = dbuf (printscreen s).
Proof.
  intros Hd Hs. unfold printscreen. cbv zeta. by_setstate.
  all: rewrite (dbuffill_replicate _ _ Hd); draw; vm_compute; reflexivity.
Qed.

Lemma printscreen_hides_s (s : state) :
  length (dbuf s) = 96%nat -> 2 <= setstate s ->
  prints (to_byte (seconds (tim s))) (dbuf (printscreen s)) <> dbuf (printscreen s).
Proof.
  intros Hd Hs E. apply (f_equal (fun d => dbuf_get d 64)) in E.
  pose proof (forall_upto _ _ tens_col_ok_all _ (seconds_range (tim s))) as Hg.
  unfold tens_col_ok in Hg. apply andb_prop in Hg as [Hg0 Hg4].
  apply negb_true_iff, Z.eqb_neq in Hg0, Hg4.
  revert E Hg0 Hg4. unfold printscreen. cbv zeta. by_setstate.
  all: rewrite (dbuffill_replicate _ _ Hd); draw; vm_compute; congruence.
Qed.

Lemma printscreen_seconds_cells (s : state) :
  length (dbuf s) = 96%nat ->
  seconds_cells (dbuf (printscreen s)) =
  if setstate s <? 2 then
    map (glyphcol (to_byte (_tens (to_byte (seconds (tim s))) + FOFFSET)) 1 0) [0; 1; 2]
    ++ [0]
    ++ map (glyphcol (to_byte (_ones (to_byte (seconds (tim s))) + FOFFSET)) 1 0) [0; 1; 2]
  else if setstate s =? 5 then [0x04; 0x06; 0x7f; 0x7f; 0x06; 0x04; 0]
  else [0; 0; 0; 0; 0; 0; 0].
Proof.
  intros Hd. unfold printscreen. cbv zeta. by_setstate.
  all: rewrite (dbuffill_replicate _ _ Hd); draw; vm_compute; reflexivity.
Qed.

(** C1, as stated, fails in state 1 (reset seconds): the seconds are
    drawn there too.  At 01:01:01 the seconds field holds the glyphs of
    0 and 1. *)
Lemma seconds_shown_in_state_1 :
  setstate (set_setstate 1 demo_state) = 1 /\
  shown (prints (to_byte (seconds (tim (set_setstate 1 demo_state)))))
        (dbuf (printscreen (set_setstate 1 demo_state))) = true /\
  seconds_cells (dbuf (printscreen (set_setstate 1 demo_state)))
  = [0x7f; 0x41; 0x7f; 0; 0x42; 0x7f; 0x40].
Proof. vm_compute. repeat split. Qed.

(** C1 (amended): whatever the elapsed time, the weekday and the battery
    value, [printscreen] leaves the seconds digits in the display buffer
    if and only if the setting state is 0 or 1 (below 2).  In the states
    from 2 on they are not drawn: the seconds field is blank, except in
    state 5, where the setting arrows of the hours' tens lie on it. *)
Theorem seconds_shown_iff (s : state) :
  length (dbuf s) = 96%nat ->
  (shown (prints (to_byte (seconds (tim s)))) (dbuf (printscreen s)) = true
   <-> setstate s < 2) /\
  (2 <= setstate s -> setstate s <> 5 ->
   seconds_cells (dbuf (printscreen s)) = [0; 0; 0; 0; 0; 0; 0]) /\
  (setstate s = 5 ->
   seconds_cells (dbuf (printscreen s)) = [0x04; 0x06; 0x7f; 0x7f; 0x06; 0x04; 0]).
Proof.
  intros Hd. split; [|split].
  - unfold shown. rewrite bool_decide_eq_true. split.
    + intros E. destruct (Z.lt_ge_cases (setstate s) 2) as [Hlt | Hge]; [exact Hlt|].
      exfalso. exact (printscreen_hides_s s Hd Hge E).
    + apply printscreen_shows_s, Hd.
  - intros H2 H5. rewrite (printscreen_seconds_cells s Hd).
    destruct (Z.ltb_spec (setstate s) 2); [lia|].
    destruct (Z.eqb_spec (setstate s) 5); [lia | reflexivity].
  - intros H5. rewrite (printscreen_seconds_cells s Hd), H5. reflexivity.
Qed.

Lemma seconds_shown_iff_witness :
  length (dbuf demo_state) = 96%nat /\
  ((shown (prints (to_byte (seconds (tim demo_state))))
          (dbuf (printscreen demo_state)) = true
    <-> setstate demo_state < 2) /\
   (2 <= setstate demo_state -> setstate demo_state <> 5 ->
    seconds_cells (dbuf (printscreen demo_state)) = [0; 0; 0; 0; 0; 0; 0]) /\
   (setstate demo_state = 5 ->
    seconds_cells (dbuf (printscreen demo_state))
    = [0x04; 0x06; 0x7f; 0x7f; 0x06; 0x04; 0])).
Proof.
  split; [reflexivity | apply (seconds_shown_iff demo_state); reflexivity].
Defined.

(** ** The time shown *)

Lemma hours_of_flat (fmt t : Z) : hours_of fmt t = (t / 3600000) mod fmt.
Proof. unfold hours_of. rewrite !Z.div_div by lia. reflexivity. Qed.

Lemma minutes_flat (t : Z) : minutes t = (t / 60000) mod 60.
Proof. unfold minutes. rewrite !Z.div_div by lia. reflexivity. Qed.

(** ** The weekday *)

Lemma dayofweek_flat (t : Z) : dayofweek t = (t / 86400000) mod 7.
Proof. unfold dayofweek. rewrite !Z.div_div by lia. reflexivity. Qed.

Lemma dayofweek_byte (t : Z) : to_byte (dayofweek t) = dayofweek t.
Proof.
  apply to_byte_small. unfold is_byte, dayofweek.
  pose proof (Z.mod_pos_bound (t / 1000 / 60 / 60 / 24) 7 ltac:(lia)). lia.
Qed.

Lemma shortpress_weekday_next (s : state) :
  setstate s = 6 -> 0 <= weekday s <= 6 ->
  weekday (shortpress s) = (weekday s + 1) mod 7.
Proof.
  intros H6 Hw. rewrite shortpress_weekday, H6. cbn [Z.eqb Pos.eqb].
  destruct (Z.gtb_spec (weekday s) 5).
  - replace (weekday s) with 6 by lia. reflexivity.
  - rewrite to_byte_small by (unfold is_byte; lia).
    symmetry. apply Z.mod_small. lia.
Qed.

Lemma shortpress_weekday_range (s : state) :
  0 <= weekday s <= 6 -> 0 <= weekday (shortpress s) <= 6.
Proof.
  intros Hw. rewrite shortpress_weekday.
  destruct (setstate s =? 6); [|exact Hw].
  destruct (Z.gtb_spec (weekday s) 5); [lia|].
  rewrite to_byte_small by (unfold is_byte; lia). lia.
Qed.

Lemma weekday_repeat (n : nat) (s : state) :
  setstate s = 6 -> 0 <= weekday s <= 6 ->
  weekday (repeat_press shortpress n s) = (weekday s + Z.of_nat n) mod 7.
Proof.
  intros H6 Hw. unfold repeat_press.
  assert (Hst : forall k, setstate (Nat.iter k shortpress s) = 6).
  { induction k as [|k IH]; [exact H6|].
    rewrite Nat.iter_succ, shortpress_setstate. exact IH. }
  induction n as [|n IH].
  - change (Nat.iter 0 shortpress s) with s.
    rewrite Z.add_0_r. symmetry. apply Z.mod_small. lia.
  - rewrite Nat.iter_succ, shortpress_weekday_next.
    + rewrite IH, Zplus_mod_idemp_l. f_equal. lia.
    + apply Hst.
    + rewrite IH.
      pose proof (Z.mod_pos_bound (weekday s + Z.of_nat n) 7 ltac:(lia)). lia.
Qed.

Lemma longpress_weekday (s : state) : weekday (longpress s) = weekday s.
Proof. unfold longpress. destruct (setstate s >? 5); reflexivity. Qed.

Lemma ISR_PCINT0_weekday (now : Z) (s : state) :
  weekday (ISR_PCINT0 now s) = weekday s.
Proof. unfold ISR_PCINT0. destruct (issleep s); reflexivity. Qed.

Lemma printscreen_weekday_range (s : state) :
  0 <= weekday s <= 6 -> 0 <= weekday (printscreen s) <= 6.
Proof.
  intros Hw. rewrite printscreen_weekday.
  destruct ((setstate s =? 0) || (setstate s =? 6)); [|exact Hw].
  rewrite dayofweek_byte, dayofweek_flat.
  pose proof (Z.mod_pos_bound (tim s / 86400000) 7 ltac:(lia)). lia.
Qed.

Lemma loop_weekday_range (inp : loop_input) (s : state) :
  0 <= weekday s <= 6 -> 0 <= weekday (loop inp s) <= 6.
Proof.
  intros Hw. unfold loop.
  destruct (issleep s); [exact Hw|].
  destruct (millis_check inp >? outtime s); [exact Hw|].
  cbv zeta.
  pose proof (printscreen_weekday_range (drain s) Hw) as Hp.
  revert Hp. generalize (printscreen (drain s)). intros p Hp.
  destruct (pressed1 inp); [|exact Hp].
  destruct (pressed2 inp).
  - rewrite longpress_weekday. exact Hp.
  - apply shortpress_weekday_range. exact Hp.
Qed.

(** The pass of [loop] that sees a tap in state 6: the weekday it leaves
    is the day after the one [tim] gives, whatever the weekday was. *)
Lemma loop_add_day (inp : loop_input) (s : state) :
  awake inp s -> short_press inp -> setstate s = 6 ->
  weekday (loop inp s) = (dayofweek (tim (drain s)) + 1) mod 7.
Proof.
  intros Ha Hp H6. rewrite (loop_short _ _ Ha Hp).
  rewrite shortpress_weekday, setstate_prelude, weekday_prelude,
    printscreen_setstate, printscreen_weekday.
  change (setstate (drain s)) with (setstate s). rewrite H6.
  cbn [Z.eqb Pos.eqb orb]. rewrite dayofweek_byte.
  assert (Hr : 0 <= dayofweek (tim (drain s)) < 7)
    by (rewrite dayofweek_flat; apply Z.mod_pos_bound; lia).
  destruct (Z.gtb_spec (dayofweek (tim (drain s))) 5).
  - replace (dayofweek (tim (drain s))) with 6 by lia. reflexivity.
  - rewrite to_byte_small by (unfold is_byte; lia).
    symmetry. apply Z.mod_small. lia.
Qed.

Lemma loop_idle_day (inp : loop_input) (s : state) :
  awake inp s -> no_press inp -> setstate s = 6 ->
  weekday (loop inp s) = dayofweek (tim (drain s)).
Proof.
  intros Ha Hn H6. rewrite (loop_nopress _ _ Ha Hn), printscreen_weekday.
  change (setstate (drain s)) with (setstate s). rewrite H6.
  cbn [Z.eqb Pos.eqb orb]. apply dayofweek_byte.
Qed.

(** C2: the code breaks the claim.  In state 6 with the weekday 2 and
    [tim] at day 0, taps seen by successive passes of [loop] leave the
    weekday at 1, 1, 1, 1 and every frame shows MO, where the edit of
    [loop] alone would give 3, 4, 5, 6; a pass with the button untouched
    sets the weekday back to 0.  For every state: the pass that sees a tap
    in state 6 leaves the day after the one [tim] gives and forgets the
    weekday it found, and the next idle pass leaves the day [tim] gives. *)
Theorem add_day_lost :
  setstate (set_setstate 6 demo_state) = 6 /\
  weekday (set_setstate 6 demo_state) = 2 /\
  map (fun n => weekday (Nat.iter n (loop pass_short) (set_setstate 6 demo_state)))
      [1; 2; 3; 4]%nat = [1; 1; 1; 1] /\
  map (fun n => weekday (repeat_press shortpress n (set_setstate 6 demo_state)))
      [1; 2; 3; 4]%nat = [3; 4; 5; 6] /\
  map (fun n => (small_cells
                   (dbuf (Nat.iter n (loop pass_short) (set_setstate 6 demo_state))) 11,
                 small_cells
                   (dbuf (Nat.iter n (loop pass_short) (set_setstate 6 demo_state))) 15))
      [1; 2; 3; 4]%nat
  = repeat (glyph_cols (chr "M") 1, glyph_cols (chr "O") 1) 4 /\
  weekday (loop pass_idle (loop pass_short (set_setstate 6 demo_state))) = 0 /\
  (forall inp s, awake inp s -> short_press inp -> setstate s = 6 ->
     weekday (loop inp s) = (dayofweek (tim (drain s)) + 1) mod 7) /\
  (forall inp s, awake inp s -> no_press inp -> setstate s = 6 ->
     weekday (loop inp s) = dayofweek (tim (drain s))).
Proof.
  split; [reflexivity|]. split; [reflexivity|].
  split; [vm_compute; reflexivity|]. split; [vm_compute; reflexivity|].
  split; [vm_compute; reflexivity|]. split; [vm_compute; reflexivity|].
  split; [exact loop_add_day | exact loop_idle_day].
Qed.

(** * Further properties *)

(** ** Pushing the buffer to the panel *)

Lemma ddisplaypage_events (page : Z) (d : list Z) (b : list bus_event) :
  ddisplaypage page d b =
  b ++ [Cmd [0x20; 0x01; 0x21; 32; 96; 0x22; page; page]; Data (page_data d page)].
Proof. unfold ddisplaypage, setpage. rewrite <- app_assoc. reflexivity. Qed.

Lemma ddisplay_events (d : list Z) (b : list bus_event) :
  ddisplay d b =
  b ++ flat_map (fun page =>
                   [Cmd [0x20; 0x01; 0x21; 32; 96; 0x22; page; page];
                    Data (page_data d page)]) [0; 1; 2; 3; 4; 5].
Proof.
  unfold ddisplay. change (upto DLINES) with [0; 1; 2]. cbn [fold_left].
  rewrite !ddisplaypage_events, <- !app_assoc. reflexivity.
Qed.

Lemma page_data_length (d : list Z) (page : Z) : length (page_data d page) = 64%nat.
Proof. reflexivity. Qed.

Lemma page_data_nth (d : list Z) (page m : Z) :
  0 <= m < 64 ->
  nth (Z.to_nat m) (page_data d page) 0 =
  expand4bit (Z.land (Z.shiftr (dbuf_get d ((page / 2) * DWIDTH + m / 2))
                               ((page mod 2) * 4)) 0x0f).
Proof.
  intros Hm. replace m with (Z.of_nat (Z.to_nat m)) at 2 by lia.
  assert (Hk : (Z.to_nat m < 64)%nat) by lia.
  revert Hk. generalize (Z.to_nat m). clear Hm. intros k Hk.
  do 64 (destruct k as [|k]; [reflexivity|]). lia.
Qed.

Lemma nibble_testbit (v q i : Z) :
  0 <= q -> 0 <= i < 4 ->
  Z.testbit (Z.land (Z.shiftr v q) 0x0f) i = Z.testbit v (q + i).
Proof.
  intros Hq Hi. rewrite Z.land_spec, Z.shiftr_spec by lia.
  replace (Z.testbit 15 i) with true.
  - rewrite andb_true_r. f_equal. lia.
  - assert (Hc : i = 0 \/ i = 1 \/ i = 2 \/ i = 3) by lia.
    destruct Hc as [-> | [-> | [-> | ->]]]; reflexivity.
Qed.

Lemma nibble_range (v : Z) : 0 <= Z.land v 0x0f < 16.
Proof.
  change 15 with (Z.ones 4). rewrite Z.land_ones by lia.
  apply Z.mod_pos_bound. lia.
Qed.

Lemma expand4bit_testbit (n b : Z) :
  0 <= n < 16 -> 0 <= b < 8 ->
  Z.testbit (expand4bit n) b = Z.testbit n (b / 2).
Proof.
  intros Hn Hb.
  pose proof (forall_upto _ _ expand4bit_bits_ok_all n Hn) as H.
  unfold expand4bit_bits_ok in H.
  apply andb_prop in H as [H _]. apply andb_prop in H as [H _].
  assert (Hi : 0 <= b / 2 < 4) by (Z.div_mod_to_equations; lia).
  pose proof (forall_upto _ _ H (b / 2) Hi) as Hbit. cbv beta in Hbit.
  apply andb_prop in Hbit as [H0 H1]. apply Bool.eqb_prop in H0, H1.
  assert (Hc : b = 2 * (b / 2) \/ b = 2 * (b / 2) + 1)
    by (Z.div_mod_to_equations; lia).
  destruct Hc as [Hc | Hc]; rewrite Hc at 1; assumption.
Qed.

(** X1: the frame [ddisplay] streams is the display buffer magnified by
    two in both directions: pixel (X, Y) of the 64x48 pixels sent equals
    pixel (X/2, Y/2) of the 32x24 buffer, whatever the buffer holds. *)
Theorem ddisplay_magnifies (d : list Z) (X Y : Z) :
  0 <= X < 64 -> 0 <= Y < 48 ->
  panel_pixel (data_sent (ddisplay d [])) X Y = dbuf_pixel d (X / 2) (Y / 2).
Proof.
  intros HX HY. rewrite ddisplay_events. unfold panel_pixel, dbuf_pixel.
  cbn [app flat_map data_sent].
  assert (Hp : 0 <= Y / 8 < 6) by (Z.div_mod_to_equations; lia).
  assert (Hb : 0 <= Y mod 8 < 8) by (apply Z.mod_pos_bound; lia).
  assert (Hpage :
    nth (Z.to_nat (Y / 8))
        [page_data d 0; page_data d 1; page_data d 2; page_data d 3;
         page_data d 4; page_data d 5] [] = page_data d (Y / 8)).
  { assert (Hc : Y / 8 = 0 \/ Y / 8 = 1 \/ Y / 8 = 2 \/ Y / 8 = 3 \/
                 Y / 8 = 4 \/ Y / 8 = 5) by lia.
    destruct Hc as [-> | [-> | [-> | [-> | [-> | ->]]]]]; reflexivity. }
  rewrite Hpage, page_data_nth by exact HX.
  rewrite expand4bit_testbit by (auto using nibble_range).
  rewrite nibble_testbit.
  - f_equal; [f_equal|]; unfold DWIDTH; Z.div_mod_to_equations; lia.
  - Z.div_mod_to_equations; lia.
  - Z.div_mod_to_equations; lia.
Qed.

Lemma ddisplay_magnifies_witness :
  0 <= 13 < 64 /\ 0 <= 21 < 48 /\
  panel_pixel (data_sent (ddisplay (dbuf (printscreen demo_state)) [])) 13 21
  = dbuf_pixel (dbuf (printscreen demo_state)) (13 / 2) (21 / 2).
Proof.
  split; [lia|]. split; [lia|].
  apply (ddisplay_magnifies (dbuf (printscreen demo_state)) 13 21); lia.
Defined.

Lemma printscreen_vcc (s : state) : vcc (printscreen s) = vcc s.
Proof. unfold printscreen. cbv zeta. by_setstate; reflexivity. Qed.

Lemma printscreen_bus (s : state) :
  bus (printscreen s) = ddisplay (dbuf (printscreen s)) (bus s).
Proof. unfold printscreen. cbv zeta. by_setstate; reflexivity. Qed.

(** X2: the bytes of a frame and their order: for each of the pages
    0..5 in turn the eight addressing bytes (vertical mode, columns
    32..96, that page) and then the 64 data bytes of the page, computed
    from the buffer just drawn; nothing else is sent.  How [dsenddatabyte]
    cuts the data bytes into I2C transactions is not part of this.
    Drawing never switches the panel on or off. *)
Theorem printscreen_frame (s : state) :
  bus (printscreen s) =
  bus s ++ flat_map (fun page =>
                       [Cmd [0x20; 0x01; 0x21; 32; 96; 0x22; page; page];
                        Data (page_data (dbuf (printscreen s)) page)])
                    [0; 1; 2; 3; 4; 5] /\
  Forall (fun l => length l = 64%nat)
         (data_sent (ddisplay (dbuf (printscreen s)) [])) /\
  display_on (bus (printscreen s)) = display_on (bus s).
Proof.
  rewrite printscreen_bus, !ddisplay_events.
  generalize (dbuf (printscreen s)). intros d.
  split; [reflexivity|].
  split.
  - cbn [app flat_map data_sent]. repeat constructor.
  - unfold display_on. rewrite fold_left_app. reflexivity.
Qed.

(** ** What the screen shows *)

Lemma printscreen_dbuf_same (s1 s2 : state) :
  length (dbuf s1) = 96%nat -> length (dbuf s2) = 96%nat ->
  tim s1 = tim s2 -> setstate s1 = setstate s2 -> vcc s1 = vcc s2 ->
  dbuf (printscreen s1) = dbuf (printscreen s2).
Proof.
  intros H1 H2 Ht Hs Hv. unfold printscreen. cbv zeta. by_setstate.
  all: rewrite (dbuffill_replicate _ _ H1), (dbuffill_replicate _ _ H2).
  all: rewrite ?Ht, ?Hv; reflexivity.
Qed.

(** X3: the buffer [printscreen] leaves depends on the time, the setting
    state and the battery reading only, not on what the buffer or the
    weekday held before; drawing the same screen again changes neither the
    buffer nor the weekday. *)
Theorem printscreen_idempotent (s : state) :
  length (dbuf s) = 96%nat ->
  (forall s', length (dbuf s') = 96%nat -> tim s' = tim s ->
              setstate s' = setstate s -> vcc s' = vcc s ->
              dbuf (printscreen s') = dbuf (printscreen s)) /\
  dbuf (printscreen (printscreen s)) = dbuf (printscreen s) /\
  weekday (printscreen (printscreen s)) = weekday (printscreen s).
Proof.
  intros Hd. split; [|split].
  - intros s' Hd' Ht Hs Hv. apply printscreen_dbuf_same; assumption.
  - apply printscreen_dbuf_same;
      auto using printscreen_length, printscreen_tim, printscreen_setstate,
                 printscreen_vcc.
  - rewrite (printscreen_weekday (printscreen s)).
    rewrite printscreen_setstate, printscreen_tim, (printscreen_weekday s).
    destruct ((setstate s =? 0) || (setstate s =? 6)); reflexivity.
Qed.

Lemma printscreen_idempotent_witness :
  length (dbuf demo_state) = 96%nat /\
  ((forall s', length (dbuf s') = 96%nat -> tim s' = tim demo_state ->
               setstate s' = setstate demo_state -> vcc s' = vcc demo_state ->
               dbuf (printscreen s') = dbuf (printscreen demo_state)) /\
   dbuf (printscreen (printscreen demo_state)) = dbuf (printscreen demo_state) /\
   weekday (printscreen (printscreen demo_state)) = weekday (printscreen demo_state)).
Proof.
  split; [reflexivity | apply (printscreen_idempotent demo_state); reflexivity].
Defined.

Lemma wday_col_ok_all : forallb wday_col_ok (upto 7) = true.
Proof. vm_compute. reflexivity. Qed.

Lemma dayofweek_range (t : Z) : 0 <= to_byte (dayofweek t) < 7.
Proof.
  rewrite dayofweek_byte, dayofweek_flat. apply Z.mod_pos_bound. lia.
Qed.

(** X4: the two letters of the weekday are in the buffer after
    [printscreen] exactly in the setting states 0 and 6; they are those of
    the day derived from the time. *)
Theorem weekday_shown_iff (s : state) :
  length (dbuf s) = 96%nat ->
  (shown (printwday (to_byte (dayofweek (tim s)))) (dbuf (printscreen s)) = true
   <-> setstate s = 0 \/ setstate s = 6).
Proof.
  intros Hd. unfold shown. rewrite bool_decide_eq_true. split.
  - intros E.
    destruct (Z.eq_dec (setstate s) 0) as [|H0]; [left; assumption|].
    destruct (Z.eq_dec (setstate s) 6) as [|H6]; [right; assumption|].
    exfalso. apply (f_equal (fun d => dbuf_get d 79)) in E.
    pose proof (forall_upto _ _ wday_col_ok_all _ (dayofweek_range (tim s))) as Hg.
    unfold wday_col_ok in Hg. apply negb_true_iff, Z.eqb_neq in Hg.
    revert E Hg. unfold printscreen, printwday. cbv zeta. by_setstate.
    all: rewrite (dbuffill_replicate _ _ Hd); draw; vm_compute; congruence.
  - intros Hs. unfold printscreen, printwday. cbv zeta. by_setstate.
    all: rewrite (dbuffill_replicate _ _ Hd); draw; vm_compute; reflexivity.
Qed.

Lemma weekday_shown_iff_witness :
  length (dbuf demo_state) = 96%nat /\
  (shown (printwday (to_byte (dayofweek (tim demo_state))))
         (dbuf (printscreen demo_state)) = true
   <-> setstate demo_state = 0 \/ setstate demo_state = 6).
Proof.
  split; [reflexivity | apply (weekday_shown_iff demo_state); reflexivity].
Defined.

(** X5: the battery field (hundreds digit, dot, tens digit of [vcc]) is
    in the buffer after [printscreen] exactly when the setting state is
    none of 1..6, whatever the reading. *)
Theorem battery_shown_iff (s : state) :
  length (dbuf s) = 96%nat ->
  (shown (printvcc (vcc s)) (dbuf (printscreen s)) = true
   <-> ~ 1 <= setstate s <= 6).
Proof.
  intros Hd. unfold shown. rewrite bool_decide_eq_true. split.
  - intros E Hs. apply (f_equal (fun d => dbuf_get d 91)) in E.
    revert E. unfold printscreen, printvcc. cbv zeta. by_setstate.
    all: rewrite (dbuffill_replicate _ _ Hd); draw; vm_compute; congruence.
  - intros Hs. unfold printscreen, printvcc. cbv zeta. by_setstate.
    all: rewrite (dbuffill_replicate _ _ Hd); draw; vm_compute; reflexivity.
Qed.

Lemma battery_shown_iff_witness :
  length (dbuf demo_state) = 96%nat /\
  (shown (printvcc (vcc demo_state)) (dbuf (printscreen demo_state)) = true
   <-> ~ 1 <= setstate demo_state <= 6).
Proof.
  split; [reflexivity | apply (battery_shown_iff demo_state); reflexivity].
Defined.

Lemma digit_above_shown (s : state) (st : Z) :
  length (dbuf s) = 96%nat -> 2 <= st <= 5 ->
  printcat (digit_above st (tim s)) (digit_column st) 0 2 2 (dbuf (printscreen s))
  = dbuf (printscreen s).
Proof.
  intros Hd Hst.
  assert (Hc : st = 2 \/ st = 3 \/ st = 4 \/ st = 5) by lia.
  destruct Hc as [-> | [-> | [-> | ->]]].
  - change (digit_above 2 (tim s))
      with (to_byte (_ones (to_byte (minutes (tim s))) + FOFFSET)).
    change (digit_column 2) with 26.
    unfold printscreen. cbv zeta. by_setstate.
    all: rewrite (dbuffill_replicate _ _ Hd); draw; vm_compute; reflexivity.
  - change (digit_above 3 (tim s))
      with (to_byte (_tens (to_byte (minutes (tim s))) + FOFFSET)).
    change (digit_column 3) with 18.
    unfold printscreen. cbv zeta. by_setstate.
    all: rewrite (dbuffill_replicate _ _ Hd); draw; vm_compute; reflexivity.
  - change (digit_above 4 (tim s))
      with (to_byte (_ones (to_byte (hours (tim s))) + FOFFSET)).
    change (digit_column 4) with 8.
    unfold printscreen. cbv zeta. by_setstate.
    all: rewrite (dbuffill_replicate _ _ Hd); draw; vm_compute; reflexivity.
  - change (digit_above 5 (tim s))
      with (to_byte (_tens (to_byte (hours (tim s))) + FOFFSET)).
    change (digit_column 5) with 0.
    unfold printscreen. cbv zeta. by_setstate.
    all: rewrite (dbuffill_replicate _ _ Hd); draw; vm_compute; reflexivity.
Qed.

(** X6: in the setting states 2..5 the pair of arrows is drawn in the
    third line right below the digit that a short press advances (the
    minutes' ones, the minutes' tens, the hours' ones, the hours' tens,
    which [printscreen] draws at that column of the clock line), and below
    no other of these four digits. *)
Theorem arrows_below_digit (s : state) (st : Z) :
  length (dbuf s) = 96%nat -> 2 <= setstate s <= 5 -> 2 <= st <= 5 ->
  shown (printcat (digit_above st (tim s)) (digit_column st) 0 2 2)
        (dbuf (printscreen s)) = true /\
  (shown (printarrow (digit_column st)) (dbuf (printscreen s)) = true
   <-> st = setstate s).
Proof.
  intros Hd Hs Hst. unfold shown. rewrite !bool_decide_eq_true.
  split; [apply digit_above_shown; assumption|].
  assert (Hc : st = 2 \/ st = 3 \/ st = 4 \/ st = 5) by lia.
  split.
  - intros E. destruct (Z.eq_dec st (setstate s)) as [|Hne]; [assumption|].
    exfalso.
    apply (f_equal (fun d => dbuf_get d (64 + digit_column st + 2))) in E.
    revert E. unfold printscreen. cbv zeta.
    destruct Hc as [-> | [-> | [-> | ->]]]; by_setstate.
    all: rewrite (dbuffill_replicate _ _ Hd); draw; vm_compute; congruence.
  - intros ->. unfold printscreen, digit_column. cbv zeta. by_setstate.
    all: rewrite (dbuffill_replicate _ _ Hd); draw; vm_compute; reflexivity.
Qed.

Lemma arrows_below_digit_witness :
  length (dbuf demo_state) = 96%nat /\ 2 <= setstate demo_state <= 5 /\
  2 <= 4 <= 5 /\
  (shown (printcat (digit_above 4 (tim demo_state)) (digit_column 4) 0 2 2)
         (dbuf (printscreen demo_state)) = true /\
   (shown (printarrow (digit_column 4)) (dbuf (printscreen demo_state)) = true
    <-> 4 = setstate demo_state)).
Proof.
  split; [reflexivity|]. split; [cbn; lia|]. split; [lia|].
  apply (arrows_below_digit demo_state 4); [reflexivity | cbn; lia | lia].
Defined.

(** ** Invariants of the state *)

Ltac ranges :=
  repeat split;
  first [assumption | reflexivity | lia | unfold is_ulong in *; lia | tauto].

Lemma to_int_range (x : Z) : -32768 <= to_int x < 32768.
Proof.
  unfold to_int. pose proof (Z.mod_pos_bound (x + 32768) 65536 ltac:(lia)). lia.
Qed.

Lemma setsleep_wf (s : state) : wf s -> wf (setsleep s).
Proof.
  unfold wf, setsleep. fields. intros (Ht & Ho & Hw & Hs & Hd & Hv & Hl).
  rewrite (dbuffill_replicate _ _ Hl). ranges.
Qed.

Lemma longpress_wf (s : state) : wf s -> wf (longpress s).
Proof.
  unfold wf. intros (Ht & Ho & Hw & Hs & Hd & Hv & Hl).
  rewrite longpress_setstate, longpress_weekday.
  assert (Hs' : 0 <= (if setstate s >? 5 then 0 else to_byte (setstate s + 1)) <= 6).
  { destruct (Z.gtb_spec (setstate s) 5); [lia|].
    rewrite to_byte_small by (unfold is_byte; lia). lia. }
  unfold longpress. destruct (setstate s >? 5); fields; ranges.
Qed.

Lemma shortpress_wf (s : state) : wf s -> wf (shortpress s).
Proof.
  unfold wf. intros (Ht & Ho & Hw & Hs & Hd & Hv & Hl).
  pose proof (shortpress_tim_range s Ht) as Ht'.
  pose proof (shortpress_weekday_range s Hd) as Hd'.
  rewrite shortpress_setstate.
  revert Ht' Hd'. unfold shortpress.
  destruct (setstate s =? 1), (setstate s =? 2), (setstate s =? 3),
    (setstate s =? 4), (setstate s =? 5), (setstate s =? 6),
    (weekday s >? 5); fields; intros; ranges.
Qed.

Lemma printscreen_wf (s : state) : wf s -> wf (printscreen s).
Proof.
  unfold wf. intros (Ht & Ho & Hw & Hs & Hd & Hv & Hl).
  rewrite printscreen_tim, printscreen_outtime, printscreen_wdtmillis,
    printscreen_setstate, printscreen_vcc, (printscreen_length s Hl).
  pose proof (printscreen_weekday_range s Hd). tauto.
Qed.

Lemma drain_wf (s : state) : wf s -> wf (drain s).
Proof.
  unfold wf, drain. fields. intros (Ht & Ho & Hw & Hs & Hd & Hv & Hl).
  pose proof (to_ulong_range (tim s + wdtmillis s)).
  ranges.
Qed.

Lemma loop_wf (inp : loop_input) (s : state) : wf s -> wf (loop inp s).
Proof.
  intros H. unfold loop.
  destruct (issleep s); [exact H|].
  destruct (millis_check inp >? outtime s); [apply setsleep_wf, H|].
  cbv zeta. pose proof (printscreen_wf _ (drain_wf _ H)) as Hp.
  revert Hp. generalize (printscreen (drain s)). intros p Hp.
  destruct (pressed1 inp); [|exact Hp].
  assert (Hq : wf (set_vcc (batt (adcl inp) (adch inp))
                     (setdtimeout (millis_press inp) p))).
  { revert Hp. unfold wf, setdtimeout, batt. fields.
    intros (Ht & Ho & Hw & Hs & Hd & Hv & Hl).
    pose proof (to_ulong_range (millis_press inp + TIMEOUT)).
    pose proof (to_int_range (Z.quot 112530 (Z.lor (Z.shiftl (adch inp) 8) (adcl inp)))).
    ranges. }
  destruct (pressed2 inp); [apply longpress_wf | apply shortpress_wf]; exact Hq.
Qed.

(** X7: the ranges of the statics are an invariant of the watch: they
    hold after [setup] and are kept by the watchdog interrupt, the button
    interrupt and every pass of [loop]; so the setting state and the
    weekday are always in 0..6, the three time values always below 2^32,
    and the buffer always has its 96 bytes. *)
Theorem wf_invariant (s : state) :
  wf s ->
  (forall e, wf (step s e)) /\
  (forall evs, wf (run evs s)) /\
  (forall now low high evs, wf (run evs (setup now low high init_state))).
Proof.
  assert (Hstep : forall s0 e, wf s0 -> wf (step s0 e)).
  { intros s0 [|now|inp] H0; cbn [step].
    - revert H0. unfold wf, ISR_WDT. fields.
      pose proof (to_ulong_range (wdtmillis s0 + wdtmillisperinterrupt)). tauto.
    - revert H0. unfold wf, ISR_PCINT0, setdtimeout.
      destruct (issleep s0); fields; [|tauto].
      pose proof (to_ulong_range (now + TIMEOUT)). tauto.
    - apply loop_wf, H0. }
  assert (Hrun : forall evs s0, wf s0 -> wf (run evs s0)).
  { unfold run. induction evs as [|e evs IH]; intros s0 H0; [exact H0|].
    cbn [fold_left]. apply IH, Hstep, H0. }
  intros H. split; [intros e; apply Hstep, H|].
  split; [intros evs; apply Hrun, H|].
  intros now low high evs. apply Hrun.
  unfold wf, setup, setdtimeout, batt, init_state. fields.
  pose proof (to_ulong_range (now + TIMEOUT)).
  pose proof (to_int_range (Z.quot 112530 (Z.lor (Z.shiftl high 8) low))).
  ranges.
Qed.

Lemma wf_invariant_witness :
  wf demo_state /\
  ((forall e, wf (step demo_state e)) /\
   (forall evs, wf (run evs demo_state)) /\
   (forall now low high evs, wf (run evs (setup now low high init_state)))).
Proof.
  split; [|apply (wf_invariant demo_state)];
    unfold wf, is_ulong; cbn; repeat split; lia.
Defined.

(** ** Sleeping, waking, counting *)

Lemma step_asleep (s : state) (e : event) :
  issleep s = true -> is_button e = false ->
  step s e = if is_tick e
             then set_wdtmillis (to_ulong (wdtmillis s + wdtmillisperinterrupt)) s
             else s.
Proof.
  intros Hs He. destruct e as [|now|inp]; cbn [step is_tick].
  - reflexivity.
  - discriminate He.
  - unfold loop. rewrite Hs. reflexivity.
Qed.

Lemma run_asleep (evs : list event) (s : state) :
  issleep s = true -> forallb (fun e => negb (is_button e)) evs = true ->
  is_ulong (wdtmillis s) ->
  run evs s =
  set_wdtmillis (to_ulong (wdtmillis s
                           + Z.of_nat (length (List.filter is_tick evs))
                             * wdtmillisperinterrupt)) s.
Proof.
  unfold run. revert s. induction evs as [|e evs IH]; intros s Hs Hb Hw.
  - cbn [fold_left List.filter length Z.of_nat]. rewrite Z.mul_0_l, Z.add_0_r.
    rewrite to_ulong_small by exact Hw. destruct s; reflexivity.
  - cbn [forallb] in Hb. apply andb_prop in Hb as [He Hb].
    apply negb_true_iff in He.
    cbn [fold_left]. rewrite (step_asleep s e Hs He).
    cbn [List.filter]. destruct (is_tick e).
    + rewrite IH; [| exact Hs | exact Hb | apply to_ulong_range ].
      unfold set_wdtmillis. fields. f_equal.
      rewrite to_ulong_add_l. f_equal. cbn [length].
      unfold wdtmillisperinterrupt. lia.
    + apply IH; assumption.
Qed.

(** X8: asleep, the watch stays asleep until a button edge: watchdog
    interrupts and passes of [loop] change nothing but [wdtmillis], which
    grows by 1072 per interrupt (modulo 2^32); no pixel and no command is
    sent, the time shown and the setting state stay.  The button edge that
    ends the sleep finds the setting state 0 if the sleep was entered by
    [setsleep]. *)
Theorem asleep_until_button (s : state) (evs : list event) :
  issleep s = true -> is_ulong (wdtmillis s) ->
  forallb (fun e => negb (is_button e)) evs = true ->
  issleep (run evs s) = true /\
  wdtmillis (run evs s)
  = (wdtmillis s + Z.of_nat (length (List.filter is_tick evs)) * 1072) mod 2 ^ 32 /\
  tim (run evs s) = tim s /\ setstate (run evs s) = setstate s /\
  weekday (run evs s) = weekday s /\ outtime (run evs s) = outtime s /\
  dbuf (run evs s) = dbuf s /\ bus (run evs s) = bus s /\
  (forall now, issleep (run (evs ++ [Button now]) s) = false /\
               display_on (bus (run (evs ++ [Button now]) s)) = true /\
               setstate (run (evs ++ [Button now]) s) = setstate s) /\
  (forall s0, s = setsleep s0 -> forall now,
     setstate (run (evs ++ [Button now]) s) = 0).
Proof.
  intros Hs Hw Hb. rewrite (run_asleep evs s Hs Hb Hw). fields.
  repeat split; try assumption.
  - unfold run. rewrite fold_left_app. fold (run evs s).
    rewrite (run_asleep evs s Hs Hb Hw). cbn [fold_left step].
    unfold ISR_PCINT0. fields. rewrite Hs. reflexivity.
  - unfold run. rewrite fold_left_app. fold (run evs s).
    rewrite (run_asleep evs s Hs Hb Hw). cbn [fold_left step].
    unfold ISR_PCINT0. fields. rewrite Hs. unfold setdtimeout, don. fields.
    apply display_on_snoc.
  - unfold run. rewrite fold_left_app. fold (run evs s).
    rewrite (run_asleep evs s Hs Hb Hw). cbn [fold_left step].
    unfold ISR_PCINT0. fields. rewrite Hs. reflexivity.
  - intros s0 -> now. unfold run. rewrite fold_left_app. fold (run evs (setsleep s0)).
    rewrite (run_asleep evs _ Hs Hb Hw). cbn [fold_left step].
    unfold ISR_PCINT0. fields. rewrite Hs. reflexivity.
Qed.

Lemma asleep_until_button_witness :
  issleep (setsleep demo_state) = true /\
  is_ulong (wdtmillis (setsleep demo_state)) /\
  forallb (fun e => negb (is_button e)) [Tick; Pass pass_short; Tick] = true /\
  wdtmillis (run [Tick; Pass pass_short; Tick] (setsleep demo_state)) = 2144.
Proof.
  split; [reflexivity|]. split; [unfold is_ulong; cbn; lia|].
  split; [reflexivity|].
  destruct (asleep_until_button (setsleep demo_state) [Tick; Pass pass_short; Tick])
    as (_ & H & _); [reflexivity | unfold is_ulong; cbn; lia | reflexivity |].
  rewrite H. reflexivity.
Defined.

Lemma ticks_frame (k : nat) (s : state) :
  tim (Nat.iter k ISR_WDT s) = tim s /\
  setstate (Nat.iter k ISR_WDT s) = setstate s /\
  issleep (Nat.iter k ISR_WDT s) = issleep s /\
  outtime (Nat.iter k ISR_WDT s) = outtime s.
Proof.
  induction k as [|k IH]; [repeat split|].
  rewrite Nat.iter_succ. unfold ISR_WDT at 1 3 5 7. fields. exact IH.
Qed.

Lemma ticks_wdtmillis (k : nat) (s : state) (a : Z) :
  to_ulong (a + wdtmillis (Nat.iter k ISR_WDT s))
  = to_ulong (a + wdtmillis s + Z.of_nat k * 1072).
Proof.
  revert a. induction k as [|k IH]; intros a.
  - change (Nat.iter 0 ISR_WDT s) with s. f_equal. lia.
  - rewrite Nat.iter_succ. unfold ISR_WDT at 1. fields.
    unfold wdtmillisperinterrupt.
    rewrite (Z.add_comm a), to_ulong_add_l.
    replace (wdtmillis (Nat.iter k ISR_WDT s) + 1072 + a)
      with ((a + 1072) + wdtmillis (Nat.iter k ISR_WDT s)) by lia.
    rewrite IH. f_equal. lia.
Qed.

Lemma counted_ticks (k : nat) (s : state) :
  counted (Nat.iter k ISR_WDT s) = to_ulong (counted s + Z.of_nat k * 1072).
Proof.
  unfold counted. destruct (ticks_frame k s) as (-> & _).
  rewrite ticks_wdtmillis, to_ulong_add_l. reflexivity.
Qed.

Lemma drain_window_fields (k : nat) (s : state) :
  tim (drain_window k s) = counted s /\
  wdtmillis (drain_window k s) = 0 /\
  setstate (drain_window k s) = setstate s.
Proof.
  unfold drain_window. cbv zeta. fields.
  destruct (ticks_frame k (set_tim (to_ulong (tim s + wdtmillis s)) s))
    as (-> & -> & _).
  repeat split.
Qed.

Lemma counted_drain_window (k : nat) (s : state) :
  counted (drain_window k s) = counted s.
Proof.
  destruct (drain_window_fields k s) as (Ht & Hw & _).
  unfold counted at 1. rewrite Ht, Hw, Z.add_0_r.
  apply to_ulong_small, to_ulong_range.
Qed.

Lemma loop_ticks_short (k : nat) (inp : loop_input) (s : state) :
  awake inp s -> short_press inp ->
  loop_ticks k inp s = shortpress (set_vcc (batt (adcl inp) (adch inp))
                 (setdtimeout (millis_press inp) (printscreen (drain_window k s)))).
Proof.
  intros [Hs Ht] [H1 H2]. unfold loop_ticks. rewrite Hs, H1, H2.
  destruct (Z.gtb_spec (millis_check inp) (outtime s)); [lia | reflexivity].
Qed.

Lemma shortpress_wdtmillis (q : state) : wdtmillis (shortpress q) = wdtmillis q.
Proof.
  unfold shortpress.
  destruct (setstate q =? 1), (setstate q =? 2), (setstate q =? 3),
    (setstate q =? 4), (setstate q =? 5), (setstate q =? 6),
    (weekday q >? 5); reflexivity.
Qed.

(** X9: the counted time, the sum of [tim] and [wdtmillis] modulo 2^32,
    with interrupts taken between statements.  Every watchdog interrupt
    adds 1072; the button interrupt, [setsleep], [printscreen] and the
    long press leave it alone.  The drain is two statements: [k]
    interrupts taken between [tim += wdtmillis;] and [wdtmillis = 0;] are
    lost, the sum after the drain is the sum before it; with none there
    it is [drain], and the pass with none is [loop].  So every pass of
    [loop] but the short press that edits the time keeps the sum it
    found and drops the interrupts taken in the window: where one
    interrupt before the drain and one after it count 3663144, one before
    and one within count 3662072. *)
Theorem counted_but_window (s : state) (k : nat) :
  counted (ISR_WDT s) = to_ulong (counted s + 1072) /\
  counted (Nat.iter k ISR_WDT s) = to_ulong (counted s + Z.of_nat k * 1072) /\
  (forall now, counted (ISR_PCINT0 now s) = counted s) /\
  counted (setsleep s) = counted s /\
  counted (printscreen s) = counted s /\
  counted (longpress s) = counted s /\
  drain_window 0 s = drain s /\
  (forall inp, loop_ticks 0 inp s = loop inp s) /\
  tim (drain_window k s) = counted s /\
  wdtmillis (drain_window k s) = 0 /\
  counted (drain_window k s) = counted s /\
  (forall inp, ~ (awake inp s /\ short_press inp) ->
               counted (loop_ticks k inp s) = counted s) /\
  (forall inp, awake inp s -> short_press inp ->
               setstate s = 0 \/ setstate s = 6 ->
               counted (loop_ticks k inp s) = counted s) /\
  counted (ISR_WDT (drain (ISR_WDT demo_state))) = 3663144 /\
  counted (drain_window 1 (ISR_WDT demo_state)) = 3662072 /\
  counted (ISR_WDT (loop pass_idle (ISR_WDT demo_state))) = 3663144 /\
  counted (loop_ticks 1 pass_idle (ISR_WDT demo_state)) = 3662072.
Proof.
  assert (Hps : forall s0, counted (printscreen s0) = counted s0).
  { intros s0. unfold counted.
    rewrite printscreen_tim, printscreen_wdtmillis. reflexivity. }
  assert (Hlp : forall s0, counted (longpress s0) = counted s0).
  { intros s0. unfold counted, longpress.
    destruct (setstate s0 >? 5); reflexivity. }
  assert (Hpre : forall inp, counted (set_vcc (batt (adcl inp) (adch inp))
                   (setdtimeout (millis_press inp) (printscreen (drain_window k s))))
                 = counted s).
  { intros inp. rewrite counted_prelude, Hps. apply counted_drain_window. }
  destruct (drain_window_fields k s) as (Ht & Hw & Hst).
  split.
  { unfold counted, ISR_WDT, wdtmillisperinterrupt, to_ulong. fields.
    rewrite Zplus_mod_idemp_r, Zplus_mod_idemp_l. f_equal. lia. }
  split; [apply counted_ticks|].
  split.
  { intros now. unfold counted, ISR_PCINT0. destruct (issleep s); reflexivity. }
  split; [reflexivity|]. split; [apply Hps|]. split; [apply Hlp|].
  split; [reflexivity|]. split; [reflexivity|].
  split; [exact Ht|]. split; [exact Hw|].
  split; [apply counted_drain_window|].
  split.
  { intros inp Hn. unfold loop_ticks.
    destruct (issleep s) eqn:Hs; [reflexivity|].
    destruct (Z.gtb_spec (millis_check inp) (outtime s)); [reflexivity|].
    cbv zeta.
    destruct (pressed1 inp) eqn:H1.
    + destruct (pressed2 inp) eqn:H2.
      * rewrite Hlp. apply Hpre.
      * exfalso. apply Hn. unfold awake, short_press.
        repeat split; first [assumption | lia].
    + rewrite Hps. apply counted_drain_window. }
  split.
  { intros inp Ha Hsp H06. rewrite (loop_ticks_short _ _ _ Ha Hsp).
    rewrite <- (Hpre inp).
    assert (Hq : setstate (set_vcc (batt (adcl inp) (adch inp))
                     (setdtimeout (millis_press inp)
                        (printscreen (drain_window k s))))
                  = setstate s).
    { rewrite setstate_prelude, printscreen_setstate. exact Hst. }
    revert Hq.
    generalize (set_vcc (batt (adcl inp) (adch inp))
                  (setdtimeout (millis_press inp) (printscreen (drain_window k s)))).
    intros q Hq. unfold counted. rewrite shortpress_tim, Hq, shortpress_wdtmillis.
    destruct H06 as [-> | ->]; reflexivity. }
  split; [vm_compute; reflexivity|]. split; [vm_compute; reflexivity|].
  split; vm_compute; reflexivity.
Qed.

(** ** The display time *)

Lemma outtime_prelude (v m : Z) (p : state) :
  outtime (set_vcc v (setdtimeout m p)) = to_ulong (m + TIMEOUT).
Proof. reflexivity. Qed.

Lemma issleep_prelude (v m : Z) (p : state) :
  issleep (set_vcc v (setdtimeout m p)) = issleep p.
Proof. reflexivity. Qed.

Lemma longpress_outtime (s : state) : outtime (longpress s) = outtime s.
Proof. unfold longpress. destruct (setstate s >? 5); reflexivity. Qed.

Lemma longpress_issleep (s : state) : issleep (longpress s) = issleep s.
Proof. unfold longpress. destruct (setstate s >? 5); reflexivity. Qed.

Lemma shortpress_outtime (s : state) : outtime (shortpress s) = outtime s.
Proof.
  unfold shortpress.
  destruct (setstate s =? 1), (setstate s =? 2), (setstate s =? 3),
    (setstate s =? 4), (setstate s =? 5), (setstate s =? 6),
    (weekday s >? 5); reflexivity.
Qed.

Lemma shortpress_issleep (s : state) : issleep (shortpress s) = issleep s.
Proof.
  unfold shortpress.
  destruct (setstate s =? 1), (setstate s =? 2), (setstate s =? 3),
    (setstate s =? 4), (setstate s =? 5), (setstate s =? 6),
    (weekday s >? 5); reflexivity.
Qed.

Lemma loop_pressed (inp : loop_input) (s : state) :
  awake inp s -> pressed1 inp = true ->
  outtime (loop inp s) = to_ulong (millis_press inp + TIMEOUT) /\
  issleep (loop inp s) = false.
Proof.
  intros Ha H1. pose proof Ha as [Hs _].
  destruct (pressed2 inp) eqn:H2.
  - rewrite (loop_long inp s Ha (conj H1 H2)).
    rewrite longpress_outtime, longpress_issleep, outtime_prelude, issleep_prelude,
      printscreen_issleep.
    split; [reflexivity | exact Hs].
  - rewrite (loop_short inp s Ha (conj H1 H2)).
    rewrite shortpress_outtime, shortpress_issleep, outtime_prelude, issleep_prelude,
      printscreen_issleep.
    split; [reflexivity | exact Hs].
Qed.




(** X11: the deadline is a 32-bit sum compared as a plain number.  A press
    seen less than [TIMEOUT] before the millisecond clock wraps sets a
    deadline that lies below the present time, and the next pass that
    reads a time not before the press (the clock has not wrapped yet) puts
    the watch to sleep at once. *)
Theorem press_before_wrap_sleeps (inp inp2 : loop_input) (s : state) :
  awake inp s -> pressed1 inp = true ->
  is_ulong (millis_press inp) -> 2 ^ 32 <= millis_press inp + TIMEOUT ->
  millis_press inp <= millis_check inp2 ->
  outtime (loop inp s) = millis_press inp + TIMEOUT - 2 ^ 32 /\
  outtime (loop inp s) < millis_press inp /\
  issleep (loop inp2 (loop inp s)) = true.
Proof.
  intros Ha H1 Hm Hw Hc. destruct (loop_pressed inp s Ha H1) as [Ho Hs].
  change (2 ^ 32) with 4294967296 in *. unfold is_ulong, TIMEOUT in *.
  assert (E : outtime (loop inp s) = millis_press inp + 5000 - 4294967296).
  { rewrite Ho. unfold to_ulong.
    rewrite <- (Z_mod_plus_full _ (-1)). apply Z.mod_small. lia. }
  split; [exact E|]. split; [lia|].
  rewrite (loop_timeout inp2 _ Hs) by lia. reflexivity.
Qed.

Lemma press_before_wrap_sleeps_witness :
  awake (mkInput 1000 true 4294967000 85 1 false) demo_state /\
  pressed1 (mkInput 1000 true 4294967000 85 1 false) = true /\
  is_ulong (millis_press (mkInput 1000 true 4294967000 85 1 false)) /\
  2 ^ 32 <= millis_press (mkInput 1000 true 4294967000 85 1 false) + TIMEOUT /\
  millis_press (mkInput 1000 true 4294967000 85 1 false)
  <= millis_check (mkInput 4294967100 false 0 85 1 false) /\
  (outtime (loop (mkInput 1000 true 4294967000 85 1 false) demo_state)
   = millis_press (mkInput 1000 true 4294967000 85 1 false) + TIMEOUT - 2 ^ 32 /\
   outtime (loop (mkInput 1000 true 4294967000 85 1 false) demo_state)
   < millis_press (mkInput 1000 true 4294967000 85 1 false) /\
   issleep (loop (mkInput 4294967100 false 0 85 1 false)
                 (loop (mkInput 1000 true 4294967000 85 1 false) demo_state)) = true).
Proof.
  split; [split; [reflexivity | cbn; lia]|]. split; [reflexivity|].
  split; [unfold is_ulong; cbn; lia|].
  split; [unfold TIMEOUT; cbn; lia|]. split; [cbn; lia|].
  apply (press_before_wrap_sleeps (mkInput 1000 true 4294967000 85 1 false)
           (mkInput 4294967100 false 0 85 1 false) demo_state);
    [split; [reflexivity | cbn; lia] | reflexivity | unfold is_ulong; cbn; lia
    | unfold TIMEOUT; cbn; lia | cbn; lia].
Defined.

(** ** The edits on the clock face *)

Lemma div_shift (t k q : Z) : 0 < q -> (t + k * q) / q = t / q + k.
Proof. intros Hq. apply Z.div_add. lia. Qed.

Lemma carry_div (x k b : Z) :
  0 < b -> 0 <= k <= b ->
  (x + k) / b = x / b + (if b <=? x mod b + k then 1 else 0).
Proof.
  intros Hb Hk. destruct (Z.leb_spec b (x mod b + k)); Z.div_mod_to_equations; nia.
Qed.

Lemma clock_after_add (t d : Z) :
  (d = 60000 \/ d = 600000 \/ d = 3600000 \/ d = 36000000) ->
  seconds (t + d) = seconds t /\
  minutes (t + d) = (minutes t + (d / 60000) mod 60) mod 60 /\
  hours (t + d) =
    (hours t + d / 3600000
     + (if 60 <=? minutes t + (d / 60000) mod 60 then 1 else 0)) mod 24 /\
  dayofweek (t + d) =
    (dayofweek t
     + (if 24 <=? hours t + d / 3600000
                  + (if 60 <=? minutes t + (d / 60000) mod 60 then 1 else 0)
        then 1 else 0)) mod 7.
Proof.
  intros Hd. unfold seconds, minutes, hours, hours_of, dayofweek, TIME1224.
  assert (Hy : exists m h, 0 <= m < 60 /\ 0 <= h <= 10 /\ d = (h * 60 + m) * 60 * 1000
                           /\ (d / 60000) mod 60 = m /\ d / 3600000 = h).
  { destruct Hd as [-> | [-> | [-> | ->]]];
      [exists 1, 0 | exists 10, 0 | exists 0, 1 | exists 0, 10]; repeat split; lia. }
  destruct Hy as (m & h & Hm & Hh & -> & -> & ->).
  replace (t + (h * 60 + m) * 60 * 1000) with (t + ((h * 60 + m) * 60) * 1000) by lia.
  rewrite div_shift by lia.
  set (y := t / 1000).
  rewrite div_shift by lia.
  set (x := y / 60).
  split.
  { apply Z_mod_plus_full. }
  split.
  { replace (x + (h * 60 + m)) with (x + m + h * 60) by lia.
    rewrite Z_mod_plus_full. rewrite Zplus_mod_idemp_l. reflexivity. }
  replace (x + (h * 60 + m)) with ((x + m) + h * 60) by lia.
  rewrite div_shift by lia. rewrite (carry_div x m 60) by lia.
  set (c := if 60 <=? x mod 60 + m then 1 else 0).
  assert (Hc : 0 <= c <= 1) by (subst c; destruct (60 <=? x mod 60 + m); lia).
  set (w := x / 60).
  split.
  { replace (w mod 24 + h + c) with (w mod 24 + (h + c)) by lia.
    rewrite Zplus_mod_idemp_l. f_equal. lia. }
  replace (w + c + h) with (w + (h + c)) by lia.
  rewrite (carry_div w (h + c) 24) by lia.
  replace (w mod 24 + h + c) with (w mod 24 + (h + c)) by lia.
  rewrite Zplus_mod_idemp_l. reflexivity.
Qed.

Lemma clock_after_reset (t : Z) :
  0 <= t ->
  let t' := t - ((t / 1000) mod 60) * 1000 in
  seconds t' = 0 /\ minutes t' = minutes t /\ hours t' = hours t /\
  dayofweek t' = dayofweek t /\ t' mod 1000 = t mod 1000.
Proof.
  intros Ht t'. unfold seconds, minutes, hours, hours_of, dayofweek, TIME1224.
  assert (Hy : t' / 1000 = 60 * (t / 1000 / 60)).
  { subst t'. replace (t - (t / 1000) mod 60 * 1000)
      with (t + (- ((t / 1000) mod 60)) * 1000) by lia.
    rewrite div_shift by lia. Z.div_mod_to_equations. lia. }
  assert (Hx : t' / 1000 / 60 = t / 1000 / 60).
  { rewrite Hy. rewrite Z.mul_comm. apply Z.div_mul. lia. }
  rewrite Hx, Hy. repeat split.
  - rewrite Z.mul_comm. apply Z_mod_mult.
  - subst t'. replace (t - (t / 1000) mod 60 * 1000)
      with (t + (- ((t / 1000) mod 60)) * 1000) by lia.
    apply Z_mod_plus_full.
Qed.

Lemma minutes_range (t : Z) : 0 <= minutes t < 60.
Proof. unfold minutes. apply Z.mod_pos_bound. lia. Qed.

Lemma hours_range (t : Z) : 0 <= hours t < 24.
Proof. unfold hours, hours_of, TIME1224. apply Z.mod_pos_bound. lia. Qed.

(** X12: in state 1 a short press sets the seconds shown to 0 and leaves
    the minutes, the hours, the day and the milliseconds within the second
    as they are; the time moves back by less than a minute. *)
Theorem reset_seconds_on_clock (s : state) :
  setstate s = 1 -> is_ulong (tim s) ->
  seconds (tim (shortpress s)) = 0 /\
  minutes (tim (shortpress s)) = minutes (tim s) /\
  hours (tim (shortpress s)) = hours (tim s) /\
  dayofweek (tim (shortpress s)) = dayofweek (tim s) /\
  tim (shortpress s) mod 1000 = tim s mod 1000 /\
  tim s - 60000 < tim (shortpress s) <= tim s.
Proof.
  intros H1 Ht. rewrite shortpress_tim, H1. cbn [Z.eqb Pos.eqb].
  rewrite (reset_seconds_exact _ Ht). unfold is_ulong in Ht.
  destruct (clock_after_reset (tim s) ltac:(lia)) as (A & B & C & D & E).
  repeat split; try assumption.
  - pose proof (Z.mod_pos_bound (tim s / 1000) 60 ltac:(lia)). lia.
  - pose proof (Z.mod_pos_bound (tim s / 1000) 60 ltac:(lia)). lia.
Qed.

Lemma reset_seconds_on_clock_witness :
  setstate (set_setstate 1 demo_state) = 1 /\
  is_ulong (tim (set_setstate 1 demo_state)) /\
  tim (shortpress (set_setstate 1 demo_state)) = 3660000.
Proof.
  split; [reflexivity|]. split; [unfold is_ulong; cbn; lia|].
  destruct (reset_seconds_on_clock (set_setstate 1 demo_state))
    as (_ & _ & _ & _ & _ & H); [reflexivity | unfold is_ulong; cbn; lia |].
  reflexivity.
Defined.

Ltac same_mod := f_equal;
  repeat match goal with
         | |- context [?a <=? ?b] => destruct (Z.leb_spec a b)
         | |- context [?a =? ?b] => destruct (Z.eqb_spec a b)
         end; lia.

(** X13: in the states 2..5 a short press adds to the running time, so
    the digit it sets carries: a minute added at 59 (ten minutes at 50 or
    later) also advances the hours, an hour added at 23 (ten hours at 14 or
    later) also advances the weekday derived from the time; the fields
    below the one set keep their value.  (For times that stay below
    2^32.) *)
Theorem add_edits_on_clock (s : state) :
  is_ulong (tim s) -> tim s + 36000000 < 2 ^ 32 ->
  (setstate s = 2 ->
   seconds (tim (shortpress s)) = seconds (tim s) /\
   minutes (tim (shortpress s)) = (minutes (tim s) + 1) mod 60 /\
   hours (tim (shortpress s))
   = (hours (tim s) + (if minutes (tim s) =? 59 then 1 else 0)) mod 24) /\
  (setstate s = 3 ->
   seconds (tim (shortpress s)) = seconds (tim s) /\
   minutes (tim (shortpress s)) = (minutes (tim s) + 10) mod 60 /\
   hours (tim (shortpress s))
   = (hours (tim s) + (if 50 <=? minutes (tim s) then 1 else 0)) mod 24) /\
  (setstate s = 4 ->
   seconds (tim (shortpress s)) = seconds (tim s) /\
   minutes (tim (shortpress s)) = minutes (tim s) /\
   hours (tim (shortpress s)) = (hours (tim s) + 1) mod 24 /\
   dayofweek (tim (shortpress s))
   = (dayofweek (tim s) + (if hours (tim s) =? 23 then 1 else 0)) mod 7) /\
  (setstate s = 5 ->
   seconds (tim (shortpress s)) = seconds (tim s) /\
   minutes (tim (shortpress s)) = minutes (tim s) /\
   hours (tim (shortpress s)) = (hours (tim s) + 10) mod 24 /\
   dayofweek (tim (shortpress s))
   = (dayofweek (tim s) + (if 14 <=? hours (tim s) then 1 else 0)) mod 7).
Proof.
  intros Ht Hfit. change (2 ^ 32) with 4294967296 in Hfit.
  pose proof Ht as Ht'. unfold is_ulong in Ht'.
  pose proof (minutes_range (tim s)) as Hm.
  pose proof (hours_range (tim s)) as Hh.
  assert (Hadd : forall d, 0 <= d <= 36000000 -> to_ulong (tim s + d) = tim s + d)
    by (intros d Hd; apply to_ulong_small; unfold is_ulong; lia).
  split; [|split; [|split]]; intros E; rewrite shortpress_tim, E;
    cbn [Z.eqb Pos.eqb]; rewrite Hadd by lia.
  - destruct (clock_after_add (tim s) 60000 ltac:(auto)) as (A & B & C & _).
    change ((60000 / 60000) mod 60) with 1 in *.
    change (60000 / 3600000) with 0 in *.
    split; [exact A|]. split; [exact B|]. rewrite C. same_mod.
  - destruct (clock_after_add (tim s) 600000 ltac:(auto)) as (A & B & C & _).
    change ((600000 / 60000) mod 60) with 10 in *.
    change (600000 / 3600000) with 0 in *.
    split; [exact A|]. split; [exact B|]. rewrite C. same_mod.
  - destruct (clock_after_add (tim s) 3600000 ltac:(auto)) as (A & B & C & D).
    change ((3600000 / 60000) mod 60) with 0 in *.
    change (3600000 / 3600000) with 1 in *.
    assert (Hc0 : (60 <=? minutes (tim s) + 0) = false) by (apply Z.leb_gt; lia).
    rewrite Hc0 in C, D.
    split; [exact A|].
    split; [rewrite B, Z.add_0_r; apply Z.mod_small, Hm|].
    split; [rewrite C; same_mod | rewrite D; same_mod].
  - destruct (clock_after_add (tim s) 36000000 ltac:(auto)) as (A & B & C & D).
    change ((36000000 / 60000) mod 60) with 0 in *.
    change (36000000 / 3600000) with 10 in *.
    assert (Hc0 : (60 <=? minutes (tim s) + 0) = false) by (apply Z.leb_gt; lia).
    rewrite Hc0 in C, D.
    split; [exact A|].
    split; [rewrite B, Z.add_0_r; apply Z.mod_small, Hm|].
    split; [rewrite C; same_mod | rewrite D; same_mod].
Qed.

Lemma add_edits_on_clock_witness :
  is_ulong (tim demo_state) /\ tim demo_state + 36000000 < 2 ^ 32 /\
  setstate demo_state = 4 /\ hours (tim (shortpress demo_state)) = 2.
Proof.
  split; [unfold is_ulong; cbn; lia|]. split; [cbn; lia|]. split; [reflexivity|].
  destruct (add_edits_on_clock demo_state) as (_ & _ & H & _);
    [unfold is_ulong; cbn; lia | cbn; lia |].
  destruct (H eq_refl) as (_ & _ & Hh & _). rewrite Hh. reflexivity.
Defined.

(** ** Battery reading and font table *)

Lemma batt_ok_all : forallb batt_ok (upto 1024) = true.
Proof. vm_compute. reflexivity. Qed.

Lemma adc_registers (low high : Z) :
  is_byte low -> 0 <= high < 4 ->
  Z.lor (Z.shiftl high 8) low = high * 256 + low /\
  (high * 256 + low) mod 256 = low /\ (high * 256 + low) / 256 = high.
Proof.
  unfold is_byte. intros Hl Hh.
  assert (Hm : (high * 256 + low) mod 256 = low)
    by (rewrite Z.add_comm, Z_mod_plus_full; apply Z.mod_small; lia).
  assert (Hd : (high * 256 + low) / 256 = high)
    by (rewrite Z.add_comm, Z.div_add by lia; rewrite Z.div_small by lia; lia).
  split; [|split; assumption].
  rewrite Z.shiftl_mul_pow2 by lia. change (2 ^ 8) with 256.
  rewrite Z.lor_comm. symmetry. rewrite Z.add_comm.
  apply Z.add_nocarry_lor.
  apply Z.bits_inj'. intros n Hn. rewrite Z.land_spec, Z.bits_0.
  destruct (Z.lt_ge_cases n 8).
  - replace (high * 256) with (high * 2 ^ 8) by reflexivity.
    rewrite Z.mul_pow2_bits_low by lia. apply andb_false_r.
  - replace (Z.testbit low n) with false; [reflexivity|].
    symmetry. apply Z.bits_above_log2; [lia|].
    destruct (Z.eq_dec low 0) as [-> | Hne]; [cbn; lia|].
    apply Z.log2_lt_pow2; [lia|].
    apply Z.lt_le_trans with (2 ^ 8); [change (2 ^ 8) with 256; lia|].
    apply Z.pow_le_mono_r; lia.
Qed.

(** X14: for a 10-bit ADC result of 4 or more, [batt] returns exactly
    112530 divided by it, a value from 110 to 28132 whose hundreds and tens
    are decimal digits; for the results 1, 2 and 3 the quotient does not
    fit the 16-bit [int] and [batt] returns a negative value. *)
Theorem batt_reading (low high : Z) :
  is_byte low -> 0 <= high < 4 -> 1 <= high * 256 + low ->
  (4 <= high * 256 + low ->
   batt low high = 112530 / (high * 256 + low) /\
   110 <= batt low high <= 28132 /\
   0 <= _huns (batt low high) <= 9 /\ 0 <= _tens (batt low high) <= 9) /\
  (high * 256 + low < 4 -> batt low high < 0).
Proof.
  intros Hl Hh H1. destruct (adc_registers low high Hl Hh) as (_ & Hm & Hd).
  unfold is_byte in Hl.
  pose proof (forall_upto _ _ batt_ok_all (high * 256 + low) ltac:(lia)) as H.
  unfold batt_ok in H. rewrite Hm, Hd in H.
  destruct (Z.eqb_spec (high * 256 + low) 0); [lia|].
  destruct (Z.ltb_spec (high * 256 + low) 4).
  - split; [lia|]. intros _. apply Z.ltb_lt, H.
  - split; [|lia]. intros _.
    repeat (apply andb_prop in H as [H ?]).
    repeat match goal with
           | H : (_ =? _) = true |- _ => apply Z.eqb_eq in H
           | H : (_ <=? _) = true |- _ => apply Z.leb_le in H
           end.
    repeat split; assumption.
Qed.

Lemma batt_reading_witness :
  is_byte 85 /\ 0 <= 1 < 4 /\ 1 <= 1 * 256 + 85 /\
  ((4 <= 1 * 256 + 85 ->
    batt 85 1 = 112530 / (1 * 256 + 85) /\
    110 <= batt 85 1 <= 28132 /\
    0 <= _huns (batt 85 1) <= 9 /\ 0 <= _tens (batt 85 1) <= 9) /\
   (1 * 256 + 85 < 4 -> batt 85 1 < 0)).
Proof.
  split; [unfold is_byte; lia|]. split; [lia|]. split; [lia|].
  apply (batt_reading 85 1); [unfold is_byte; lia | lia | lia].
Defined.

Lemma digit_in_font_all : forallb digit_in_font (upto 10) = true.
Proof. vm_compute. reflexivity. Qed.

Lemma wday_in_font_all : forallb wday_in_font (upto 7) = true.
Proof. vm_compute. reflexivity. Qed.

Lemma decimal_digits (n : Z) :
  0 <= n -> 0 <= _ones n < 10 /\ 0 <= _tens n < 10 /\ 0 <= _huns n < 10.
Proof.
  intros Hn. unfold _ones, _tens, _huns.
  pose proof (Z.quot_pos n 10 Hn ltac:(lia)).
  pose proof (Z.quot_pos n 100 Hn ltac:(lia)).
  pose proof (Z.rem_bound_pos n 10 Hn ltac:(lia)).
  pose proof (Z.rem_bound_pos (Z.quot n 10) 10 ltac:(lia) ltac:(lia)).
  pose proof (Z.rem_bound_pos (Z.quot n 100) 10 ltac:(lia) ltac:(lia)).
  lia.
Qed.

(** X15: every character [printscreen] hands to [printcat] lies inside
    the font table, for a weekday in range and a battery reading that is
    not negative: the decimal digits of any non-negative number, the
    letters of the seven weekday names, and the six symbols.  A negative
    reading with a non-zero hundreds digit is looked up before the start
    of the table. *)
Theorem glyphs_in_font :
  (forall n, 0 <= n ->
     in_font (to_byte (_ones n + FOFFSET)) = true /\
     in_font (to_byte (_tens n + FOFFSET)) = true /\
     in_font (to_byte (_huns n + FOFFSET)) = true) /\
  (forall wd, 0 <= wd <= 6 ->
     in_font (pgm_read_byte wday (2 * wd)) = true /\
     in_font (pgm_read_byte wday (2 * wd + 1)) = true) /\
  forallb in_font (map chr [":"; "<"; "="; ">"; "?"; "@"]%char) = true /\
  (forall v, v < 0 -> _huns v <> 0 ->
     in_font (to_byte (_huns v + FOFFSET)) = false).
Proof.
  split; [|split; [|split]].
  - intros n Hn. destruct (decimal_digits n Hn) as (H1 & H2 & H3).
    pose proof (forall_upto _ _ digit_in_font_all) as H. unfold digit_in_font in H.
    auto.
  - intros wd Hw. pose proof (forall_upto _ _ wday_in_font_all wd ltac:(lia)) as H.
    unfold wday_in_font in H. apply andb_prop in H. exact H.
  - vm_compute. reflexivity.
  - intros v Hv Hne. unfold _huns in *.
    assert (Hq : Z.quot v 100 <= 0).
    { replace v with (- (- v)) by lia. rewrite Z.quot_opp_l by lia.
      pose proof (Z.quot_pos (- v) 100 ltac:(lia) ltac:(lia)). lia. }
    assert (Hr : -10 < Z.rem (Z.quot v 100) 10 <= 0).
    { replace (Z.quot v 100) with (- (- Z.quot v 100)) by lia.
      rewrite Z.rem_opp_l by lia.
      pose proof (Z.rem_bound_pos (- Z.quot v 100) 10 ltac:(lia) ltac:(lia)). lia. }
    unfold in_font, to_byte, FOFFSET, FWIDTH.
    rewrite Z.mod_small by lia.
    destruct (Z.leb_spec 0 (3 * (Z.rem (Z.quot v 100) 10 + 48 - 48))); [lia|].
    reflexivity.
Qed.

(** ** Watchdog setting and delays *)

Lemma setwatchdog_ok_all : forallb setwatchdog_ok (upto 256) = true.
Proof. vm_compute. reflexivity. Qed.

(** X16: for every byte [n], the control value [setwatchdog] computes
    selects the watchdog prescaler [min n 9] (bits WDP3 and WDP2..0), has
    the change-enable bit set and the reset-enable bit clear, so the
    watchdog never resets the watch; for the configured interval 6 it is
    0x16. *)
Theorem setwatchdog_prescaler (n : Z) :
  is_byte n ->
  prescaler (setwatchdog_wv n) = Z.min n 9 /\
  Z.testbit (setwatchdog_wv n) WDCE = true /\
  Z.testbit (setwatchdog_wv n) WDE = false /\
  Z.testbit (setwatchdog_wv n) WDIE = false /\
  is_byte (setwatchdog_wv n) /\
  setwatchdog_wv WDT_INTERVAL = 0x16.
Proof.
  intros Hn. pose proof (forall_upto _ _ setwatchdog_ok_all n Hn) as H.
  unfold setwatchdog_ok in H.
  repeat (apply andb_prop in H as [H ?]).
  repeat match goal with
         | H : negb _ = true |- _ => apply negb_true_iff in H
         | H : (_ =? _) = true |- _ => apply Z.eqb_eq in H
         | H : (_ <=? _) = true |- _ => apply Z.leb_le in H
         | H : (_ <? _) = true |- _ => apply Z.ltb_lt in H
         end.
  unfold is_byte. repeat split; assumption || reflexivity.
Qed.

Lemma setwatchdog_prescaler_witness :
  is_byte 200 /\ prescaler (setwatchdog_wv 200) = 9.
Proof.
  split; [unfold is_byte; lia|].
  destruct (setwatchdog_prescaler 200) as [H _]; [unfold is_byte; lia|].
  rewrite H. reflexivity.
Defined.

Lemma delayshort_waits_spec (ms t d : Z) :
  is_ulong t -> 0 <= d ->
  delayshort_waits ms t (to_ulong (t + d)) = (d mod 256 <? ms).
Proof.
  intros Ht Hd. unfold delayshort_waits, to_byte, to_ulong. f_equal.
  rewrite Zminus_mod_idemp_l. replace (t + d - t) with d by lia.
  change 4294967296 with (256 * 16777216).
  rewrite Z.rem_mul_r by lia.
  rewrite (Z.mul_comm 256), Z_mod_plus_full. apply Zmod_mod.
Qed.

Lemma delayshort_poll_clock (ms t : Z) (k : nat) :
  is_ulong t -> 0 <= ms < 256 ->
  forall a n, (a + k)%nat = Z.to_nat ms -> (Z.to_nat ms < a + n)%nat ->
  delayshort_poll ms t (map (fun i => to_ulong (t + Z.of_nat i)) (seq a n))
  = Some (map (fun i => to_ulong (t + Z.of_nat i))
              (seq (S (Z.to_nat ms)) (a + n - S (Z.to_nat ms)))).
Proof.
  intros Ht Hms. induction k as [|k IH]; intros a n Hak Hn.
  - destruct n as [|n]; [lia|]. cbn [seq map delayshort_poll].
    rewrite delayshort_waits_spec by (assumption || lia).
    rewrite Z.mod_small by lia.
    destruct (Z.ltb_spec (Z.of_nat a) ms); [lia|].
    do 3 f_equal; lia.
  - destruct n as [|n]; [lia|]. cbn [seq map delayshort_poll].
    rewrite delayshort_waits_spec by (assumption || lia).
    rewrite Z.mod_small by lia.
    destruct (Z.ltb_spec (Z.of_nat a) ms); [|lia].
    rewrite (IH (S a) n) by lia. do 3 f_equal. lia.
Qed.

(** X17: [delayshort] waits while the time passed since its start, taken
    modulo 256, is below [ms]; the test is exact across the wrap of the
    32-bit millisecond clock.  Read once per millisecond it returns with
    the reading [ms] after the start, never earlier; but a poll that comes
    between 256 and 255 + [ms] milliseconds after the start finds the loop
    waiting again. *)
Theorem delayshort_exact (ms t : Z) :
  is_ulong t -> 1 <= ms < 256 ->
  (forall d, 0 <= d ->
     delayshort_waits ms t (to_ulong (t + d)) = (d mod 256 <? ms)) /\
  (forall d, 0 <= d < ms -> delayshort_waits ms t (to_ulong (t + d)) = true) /\
  (forall d, ms <= d < 256 -> delayshort_waits ms t (to_ulong (t + d)) = false) /\
  (forall d, 256 <= d < 256 + ms ->
     delayshort_waits ms t (to_ulong (t + d)) = true) /\
  (forall n, (Z.to_nat ms < n)%nat ->
     delayshort ms (clock t n) = Some (skipn (S (Z.to_nat ms)) (clock t n))) /\
  (forall n, (n <= Z.to_nat ms)%nat -> delayshort ms (clock t n) = None).
Proof.
  intros Ht Hms.
  split; [intros d Hd; apply delayshort_waits_spec; assumption|].
  split.
  { intros d Hd. rewrite delayshort_waits_spec by (assumption || lia).
    rewrite Z.mod_small by lia. apply Z.ltb_lt. lia. }
  split.
  { intros d Hd. rewrite delayshort_waits_spec by (assumption || lia).
    rewrite Z.mod_small by lia. apply Z.ltb_ge. lia. }
  split.
  { intros d Hd. rewrite delayshort_waits_spec by (assumption || lia).
    replace d with (d - 256 + 1 * 256) by lia.
    rewrite Z_mod_plus_full, Z.mod_small by lia. apply Z.ltb_lt. lia. }
  assert (Ht0 : to_ulong (t + Z.of_nat 0) = t)
    by (rewrite Z.add_0_r; apply to_ulong_small, Ht).
  split.
  - intros n Hn. unfold clock. rewrite skipn_map, skipn_seq.
    destruct n as [|n]; [lia|]. cbn [seq map delayshort]. rewrite Ht0.
    rewrite (delayshort_poll_clock ms t (Z.to_nat ms - 1) Ht ltac:(lia) 1%nat n)
      by lia.
    do 2 f_equal; lia.
  - intros n Hn. unfold clock. destruct n as [|n]; [reflexivity|].
    cbn [seq map delayshort]. rewrite Ht0.
    assert (Hgen : forall a m, (a + m <= Z.to_nat ms)%nat ->
              delayshort_poll ms t
                (map (fun i => to_ulong (t + Z.of_nat i)) (seq a m)) = None).
    { intros a m. revert a. induction m as [|m IH]; intros a Ha; [reflexivity|].
      cbn [seq map delayshort_poll].
      rewrite delayshort_waits_spec by (assumption || lia).
      rewrite Z.mod_small by lia.
      destruct (Z.ltb_spec (Z.of_nat a) ms); [|lia].
      apply IH. lia. }
    apply Hgen. lia.
Qed.

Lemma delayshort_exact_witness :
  is_ulong 4294967200 /\ 1 <= 250 < 256 /\
  delayshort_waits 250 4294967200 (to_ulong (4294967200 + 249)) = true /\
  delayshort_waits 250 4294967200 (to_ulong (4294967200 + 250)) = false.
Proof.
  split; [unfold is_ulong; lia|]. split; [lia|].
  destruct (delayshort_exact 250 4294967200) as (_ & H1 & H2 & _);
    [unfold is_ulong; lia | lia |].
  split; [apply H1; lia | apply H2; lia].
Defined.

(** ** Reading the time off the buffer *)

Lemma list_eqb_refl (l : list Z) : list_eqb l l = true.
Proof.
  unfold list_eqb. rewrite Nat.eqb_refl. cbn [andb].
  induction l as [|x l IH]; [reflexivity|].
  cbn [combine forallb fst snd]. rewrite Z.eqb_refl. exact IH.
Qed.

Lemma digit_glyph_unique_all : forallb digit_glyph_unique (upto 10) = true.
Proof. vm_compute. reflexivity. Qed.

Lemma digit_glyph_inj (h a b : Z) :
  h = 1 \/ h = 2 -> 0 <= a < 10 -> 0 <= b < 10 ->
  glyph_cols (to_byte (a + FOFFSET)) h = glyph_cols (to_byte (b + FOFFSET)) h ->
  a = b.
Proof.
  intros Hh Ha Hb E.
  pose proof (forall_upto _ _ digit_glyph_unique_all a Ha) as H.
  unfold digit_glyph_unique in H.
  pose proof (forall_upto _ _ H b Hb) as Hab. cbv beta in Hab.
  destruct (Z.eqb_spec a b) as [|Hne]; [assumption|]. cbn [orb] in Hab.
  apply andb_prop in Hab as [H1 H2].
  destruct Hh as [-> | ->]; rewrite E, list_eqb_refl in *; discriminate.
Qed.

Lemma two_digits (n m : Z) :
  0 <= n < 100 -> 0 <= m < 100 ->
  _tens n = _tens m -> _ones n = _ones m -> n = m.
Proof.
  unfold _tens, _ones. intros Hn Hm Ht Ho.
  rewrite !Z.quot_div_nonneg in Ht by lia.
  rewrite !Z.rem_mod_nonneg in Ht, Ho by (try apply Z.div_pos; lia).
  Z.div_mod_to_equations. lia.
Qed.

Lemma printscreen_digit_cells (s : state) :
  length (dbuf s) = 96%nat ->
  big_cells (dbuf (printscreen s)) 0
  = glyph_cols (to_byte (_tens (to_byte (hours (tim s))) + FOFFSET)) 2 /\
  big_cells (dbuf (printscreen s)) 8
  = glyph_cols (to_byte (_ones (to_byte (hours (tim s))) + FOFFSET)) 2 /\
  big_cells (dbuf (printscreen s)) 18
  = glyph_cols (to_byte (_tens (to_byte (minutes (tim s))) + FOFFSET)) 2 /\
  big_cells (dbuf (printscreen s)) 26
  = glyph_cols (to_byte (_ones (to_byte (minutes (tim s))) + FOFFSET)) 2.
Proof.
  intros Hd. unfold printscreen, glyph_cols. cbv zeta. by_setstate.
  all: rewrite (dbuffill_replicate _ _ Hd); draw; vm_compute; repeat split.
Qed.

Lemma printscreen_second_cells (s : state) :
  length (dbuf s) = 96%nat -> setstate s < 2 ->
  small_cells (dbuf (printscreen s)) 0
  = glyph_cols (to_byte (_tens (to_byte (seconds (tim s))) + FOFFSET)) 1 /\
  small_cells (dbuf (printscreen s)) 4
  = glyph_cols (to_byte (_ones (to_byte (seconds (tim s))) + FOFFSET)) 1.
Proof.
  intros Hd Hs. unfold printscreen, glyph_cols. cbv zeta. by_setstate.
  all: rewrite (dbuffill_replicate _ _ Hd); draw; vm_compute; repeat split.
Qed.

Lemma byte_digits (n : Z) :
  0 <= n < 100 -> to_byte n = n /\ 0 <= _tens n < 10 /\ 0 <= _ones n < 10.
Proof.
  intros Hn. split; [apply to_byte_small; unfold is_byte; lia|].
  destruct (decimal_digits n ltac:(lia)) as (H1 & H2 & _). auto.
Qed.

(** X18: the buffer tells the time: if [printscreen] leaves the same
    buffer for two states, they show the same hours and the same minutes,
    and the same seconds when both are in a state that shows seconds; no
    two of these values are drawn alike. *)
Theorem buffer_determines_time (s1 s2 : state) :
  length (dbuf s1) = 96%nat -> length (dbuf s2) = 96%nat ->
  dbuf (printscreen s1) = dbuf (printscreen s2) ->
  hours (tim s1) = hours (tim s2) /\
  minutes (tim s1) = minutes (tim s2) /\
  (setstate s1 < 2 -> setstate s2 < 2 -> seconds (tim s1) = seconds (tim s2)).
Proof.
  intros H1 H2 E.
  destruct (printscreen_digit_cells s1 H1) as (A1 & B1 & C1 & D1).
  destruct (printscreen_digit_cells s2 H2) as (A2 & B2 & C2 & D2).
  rewrite E in A1, B1, C1, D1. rewrite A2 in A1. rewrite B2 in B1.
  rewrite C2 in C1. rewrite D2 in D1.
  pose proof (hours_range (tim s1)) as Hh1. pose proof (hours_range (tim s2)) as Hh2.
  pose proof (minutes_range (tim s1)) as Hm1.
  pose proof (minutes_range (tim s2)) as Hm2.
  destruct (byte_digits (hours (tim s1)) ltac:(lia)) as (Eh1 & ? & ?).
  destruct (byte_digits (hours (tim s2)) ltac:(lia)) as (Eh2 & ? & ?).
  destruct (byte_digits (minutes (tim s1)) ltac:(lia)) as (Em1 & ? & ?).
  destruct (byte_digits (minutes (tim s2)) ltac:(lia)) as (Em2 & ? & ?).
  rewrite Eh1, Eh2 in A1, B1. rewrite Em1, Em2 in C1, D1.
  split; [|split].
  - apply two_digits; try lia; symmetry;
      eapply (digit_glyph_inj 2); eauto.
  - apply two_digits; try lia; symmetry;
      eapply (digit_glyph_inj 2); eauto.
  - intros L1 L2.
    destruct (printscreen_second_cells s1 H1 L1) as (P1 & Q1).
    destruct (printscreen_second_cells s2 H2 L2) as (P2 & Q2).
    rewrite E in P1, Q1. rewrite P2 in P1. rewrite Q2 in Q1.
    assert (Hs1 : 0 <= seconds (tim s1) < 60)
      by (unfold seconds; apply Z.mod_pos_bound; lia).
    assert (Hs2 : 0 <= seconds (tim s2) < 60)
      by (unfold seconds; apply Z.mod_pos_bound; lia).
    destruct (byte_digits (seconds (tim s1)) ltac:(lia)) as (Es1 & ? & ?).
    destruct (byte_digits (seconds (tim s2)) ltac:(lia)) as (Es2 & ? & ?).
    rewrite Es1, Es2 in P1, Q1.
    apply two_digits; try lia; symmetry;
      eapply (digit_glyph_inj 1); eauto.
Qed.

Lemma buffer_determines_time_witness :
  length (dbuf demo_state) = 96%nat /\
  length (dbuf (set_weekday 5 demo_state)) = 96%nat /\
  dbuf (printscreen demo_state) = dbuf (printscreen (set_weekday 5 demo_state)) /\
  hours (tim demo_state) = hours (tim (set_weekday 5 demo_state)).
Proof.
  split; [reflexivity|]. split; [reflexivity|].
  assert (E : dbuf (printscreen demo_state)
              = dbuf (printscreen (set_weekday 5 demo_state)))
    by (vm_compute; reflexivity).
  split; [exact E|].
  destruct (buffer_determines_time demo_state (set_weekday 5 demo_state))
    as [H _]; [reflexivity | reflexivity | exact E | exact H].
Defined.

(** ** The time on the display *)

Lemma printscreen_digit_fields (s : state) :
  length (dbuf s) = 96%nat ->
  field (dbuf (printscreen s)) 0 0 2 2
  = glyph_field (to_byte (_tens (to_byte (hours (tim s))) + FOFFSET)) 2 2 /\
  field (dbuf (printscreen s)) 8 0 2 2
  = glyph_field (to_byte (_ones (to_byte (hours (tim s))) + FOFFSET)) 2 2 /\
  field (dbuf (printscreen s)) 18 0 2 2
  = glyph_field (to_byte (_tens (to_byte (minutes (tim s))) + FOFFSET)) 2 2 /\
  field (dbuf (printscreen s)) 26 0 2 2
  = glyph_field (to_byte (_ones (to_byte (minutes (tim s))) + FOFFSET)) 2 2.
Proof.
  intros Hd. unfold printscreen, glyph_field. cbv zeta. by_setstate.
  all: rewrite (dbuffill_replicate _ _ Hd); draw; vm_compute; repeat split.
Qed.

Lemma printscreen_second_fields (s : state) :
  length (dbuf s) = 96%nat -> setstate s < 2 ->
  field (dbuf (printscreen s)) 0 2 1 1
  = glyph_field (to_byte (_tens (to_byte (seconds (tim s))) + FOFFSET)) 1 1 /\
  field (dbuf (printscreen s)) 4 2 1 1
  = glyph_field (to_byte (_ones (to_byte (seconds (tim s))) + FOFFSET)) 1 1.
Proof.
  intros Hd Hs. unfold printscreen, glyph_field. cbv zeta. by_setstate.
  all: rewrite (dbuffill_replicate _ _ Hd); draw; vm_compute; repeat split.
Qed.

Lemma digit_chars (n : Z) :
  0 <= n < 100 ->
  to_byte (_tens (to_byte n) + FOFFSET) = chr "0" + n / 10 /\
  to_byte (_ones (to_byte n) + FOFFSET) = chr "0" + n mod 10.
Proof.
  intros Hn. destruct (byte_digits n Hn) as (-> & Ht & Ho).
  assert (Et : _tens n = n / 10).
  { unfold _tens. rewrite Z.quot_div_nonneg by lia.
    rewrite Z.rem_mod_nonneg by (try apply Z.div_pos; lia).
    apply Z.mod_small. Z.div_mod_to_equations. lia. }
  assert (Eo : _ones n = n mod 10).
  { unfold _ones. apply Z.rem_mod_nonneg; lia. }
  rewrite Et, Eo in *. change FOFFSET with 48. change (chr "0") with 48.
  split; rewrite Z.add_comm; apply to_byte_small; unfold is_byte; lia.
Qed.

Lemma digit_field_unique_all : forallb digit_field_unique (upto 10) = true.
Proof. vm_compute. reflexivity. Qed.

Lemma digit_field_inj (w a b : Z) :
  w = 1 \/ w = 2 -> 0 <= a < 10 -> 0 <= b < 10 ->
  glyph_field (chr "0" + a) w w = glyph_field (chr "0" + b) w w -> a = b.
Proof.
  intros Hw Ha Hb E.
  pose proof (forall_upto _ _ digit_field_unique_all a Ha) as H.
  unfold digit_field_unique in H.
  pose proof (forall_upto _ _ H b Hb) as Hab. cbv beta in Hab.
  destruct (Z.eqb_spec a b) as [|Hne]; [assumption|]. cbn [orb] in Hab.
  apply andb_prop in Hab as [H1 H2].
  change FOFFSET with 48 in H1, H2. change (chr "0") with 48 in E.
  rewrite !(to_byte_small (_ + 48)) in H1, H2 by (unfold is_byte; lia).
  rewrite !(Z.add_comm _ 48) in H1, H2.
  destruct Hw as [-> | ->]; rewrite E, list_eqb_refl in *; discriminate.
Qed.

Lemma two_digits_at_unique (d : list Z) (x y w n m : Z) :
  w = 1 \/ w = 2 -> 0 <= n < 100 -> 0 <= m < 100 ->
  two_digits_at d x y w w n -> two_digits_at d x y w w m -> n = m.
Proof.
  intros Hw Hn Hm [A1 B1] [A2 B2]. rewrite A1 in A2. rewrite B1 in B2.
  apply (digit_field_inj w) in A2, B2; try assumption.
  - Z.div_mod_to_equations. lia.
  - apply Z.mod_pos_bound; lia.
  - apply Z.mod_pos_bound; lia.
  - Z.div_mod_to_equations. lia.
  - Z.div_mod_to_equations. lia.
Qed.

(** C4: for every elapsed time the hours, minutes and seconds on the
    display are [(tim / 3600000) mod fmt] for the hour format [fmt]
    ([TIME1224] as configured), [(tim / 60000) mod 60] and
    [(tim / 1000) mod 60].  After [printscreen] the cells of the two
    double-size glyphs at columns 0 and 8 of the clock line hold the font
    bytes of the tens and ones digit of the first value, those at columns
    18 and 26 the digits of the second, and in the states that show
    seconds the cells of the small glyphs at columns 0 and 4 of the third
    line the digits of the third; no other number below 100 is drawn with
    these bytes, so the display reads these values and no others.  They
    are what [printscreen] computes by successive divisions, and at 0,
    999, 1000, 3599999, 3600000 and [fmt * 3600000 - 1] they are as
    listed. *)
Theorem displayed_components (s : state) :
  length (dbuf s) = 96%nat ->
  two_digits_at (dbuf (printscreen s)) 0 0 2 2 ((tim s / 3600000) mod TIME1224) /\
  two_digits_at (dbuf (printscreen s)) 18 0 2 2 ((tim s / 60000) mod 60) /\
  (setstate s < 2 ->
   two_digits_at (dbuf (printscreen s)) 0 2 1 1 ((tim s / 1000) mod 60)) /\
  (forall n, 0 <= n < 100 ->
     two_digits_at (dbuf (printscreen s)) 0 0 2 2 n ->
     n = (tim s / 3600000) mod TIME1224) /\
  (forall n, 0 <= n < 100 ->
     two_digits_at (dbuf (printscreen s)) 18 0 2 2 n ->
     n = (tim s / 60000) mod 60) /\
  (forall n, setstate s < 2 -> 0 <= n < 100 ->
     two_digits_at (dbuf (printscreen s)) 0 2 1 1 n ->
     n = (tim s / 1000) mod 60) /\
  (forall fmt t, hours_of fmt t = (t / 3600000) mod fmt) /\
  hours (tim s) = (tim s / 3600000) mod TIME1224 /\
  minutes (tim s) = (tim s / 60000) mod 60 /\
  seconds (tim s) = (tim s / 1000) mod 60 /\
  to_byte (hours (tim s)) = hours (tim s) /\
  to_byte (minutes (tim s)) = minutes (tim s) /\
  to_byte (seconds (tim s)) = seconds (tim s) /\
  map (fun t => (hours t, minutes t, seconds t))
      [0; 999; 1000; 3599999; 3600000; TIME1224 * 3600000 - 1]
  = [(0, 0, 0); (0, 0, 0); (0, 0, 1); (0, 59, 59); (1, 0, 0); (23, 59, 59)] /\
  (hours_of 12 (12 * 3600000 - 1), minutes (12 * 3600000 - 1),
   seconds (12 * 3600000 - 1)) = (11, 59, 59).
Proof.
  intros Hd.
  pose proof (hours_range (tim s)) as Hh.
  pose proof (minutes_range (tim s)) as Hm.
  assert (Hs : 0 <= seconds (tim s) < 60)
    by (unfold seconds; apply Z.mod_pos_bound; lia).
  destruct (printscreen_digit_fields s Hd) as (A & B & C & D).
  destruct (digit_chars (hours (tim s)) ltac:(lia)) as [Eht Eho].
  destruct (digit_chars (minutes (tim s)) ltac:(lia)) as [Emt Emo].
  destruct (digit_chars (seconds (tim s)) ltac:(lia)) as [Est Eso].
  rewrite Eht in A. rewrite Eho in B. rewrite Emt in C. rewrite Emo in D.
  assert (EH : hours (tim s) = (tim s / 3600000) mod TIME1224)
    by apply hours_of_flat.
  assert (EM : minutes (tim s) = (tim s / 60000) mod 60)
    by apply minutes_flat.
  assert (ES : seconds (tim s) = (tim s / 1000) mod 60) by reflexivity.
  assert (TH : two_digits_at (dbuf (printscreen s)) 0 0 2 2 (hours (tim s)))
    by (split; assumption).
  assert (TM : two_digits_at (dbuf (printscreen s)) 18 0 2 2 (minutes (tim s)))
    by (split; assumption).
  assert (TS : setstate s < 2 ->
               two_digits_at (dbuf (printscreen s)) 0 2 1 1 (seconds (tim s))).
  { intros L. destruct (printscreen_second_fields s Hd L) as (P & Q).
    rewrite Est in P. rewrite Eso in Q. split; assumption. }
  rewrite <- EH, <- EM, <- ES.
  split; [exact TH|]. split; [exact TM|]. split; [exact TS|].
  split.
  { intros n Hn T. apply (two_digits_at_unique (dbuf (printscreen s)) 0 0 2); auto; lia. }
  split.
  { intros n Hn T. apply (two_digits_at_unique (dbuf (printscreen s)) 18 0 2); auto; lia. }
  split.
  { intros n L Hn T. apply (two_digits_at_unique (dbuf (printscreen s)) 0 2 1); auto; lia. }
  split; [exact hours_of_flat|].
  split; [reflexivity|]. split; [reflexivity|]. split; [reflexivity|].
  split; [apply to_byte_small; unfold is_byte; lia|].
  split; [apply to_byte_small; unfold is_byte; lia|].
  split; [apply to_byte_small; unfold is_byte; lia|].
  split; reflexivity.
Qed.

Lemma displayed_components_witness :
  length (dbuf demo_state) = 96%nat /\
  two_digits_at (dbuf (printscreen demo_state)) 0 0 2 2 1 /\
  two_digits_at (dbuf (printscreen demo_state)) 18 0 2 2 1 /\
  hours (tim demo_state) = 1 /\ minutes (tim demo_state) = 1.
Proof.
  split; [reflexivity|].
  destruct (displayed_components demo_state) as (A & B & _ & _ & _ & _ & _ & C & D & _);
    [reflexivity|].
  split; [exact A|]. split; [exact B|]. split; [exact C | exact D].
Defined.
